(** * CrashXP: the round engine and reward economy of [src/app/page.tsx]

    A shallow embedding of the game logic of the [CrashXPGame] component.

    ** Numbers

    Every JavaScript [number] that holds an XP amount or a counter is an
    integer in the program (wagers are produced by [parseInt], by
    [Math.floor(..) * 10] or by adding 10; winnings by [Math.floor]) and is
    modelled in [Z].  Multipliers, weights and random draws are fractional
    and are modelled as exact rationals [Q]: the arithmetic is the one the
    source writes, without binary rounding.  [Math.random()] and [Date.now()]
    are inputs of the functions that call them.

    One test of the program is sensitive to that rounding: a tick of the
    climb moves the multiplier shown when it differs from the last one by
    more than 0.01, and for a climb that ticks every 10 ms the exact
    difference is 0.01 itself at the tick of 550 ms, where the doubles of
    the program differ by slightly more.  Up to the tick of 540 ms both
    arithmetics take the same decisions; the sessions below whose theorems
    state a multiplier reached by such moves stay within that range, and
    the multipliers stated for longer climbs are crash points at which a
    tick has clamped, which do not depend on the moves before.

    ** State, renders and closures

    The component keeps its state in [useState] cells ([game], [user],
    [creator], [autoPlay], [isAuthReady]).  A callback of the component reads
    the cells in two ways, and the embedding keeps them apart:

    - through the constants [game], [user], ... bound by the render in which
      the callback was created.  They are immutable: a later [setGame] builds
      a new object for later renders and never changes the one the callback
      holds.  Every operation below takes this render as its argument [r].
    - through an updater [setUser(prev => ...)].  Updaters are queued and run
      in order, each on the result of the one before it.  They act on the
      current state, the argument [s] (or the [store] of a [World]).

    A handler attached to a button ([onClick={placeWager}]) belongs to the
    latest render, so a click runs it with [r] equal to the current state
    ([clickPlaceWager], [clickCashOut]).  A callback handed to [setInterval]
    or [setTimeout] keeps the render of the function that created it.  The
    interval callback of [startMultiplierClimb] is created while [placeWager]
    runs: the [game.crashPoint] it tests is the one of the render in which
    the wager was clicked, and the changes that [placeWager] and [startRound]
    queue with [setUser] and [setGame] reach the updaters and the later
    renders only.  The [crashGame] that the callback schedules, and the
    [offerSecondChance] and modal actions that follow from it, are those of
    the render in which [startMultiplierClimb] was created: the latest one
    in which [game.crashPoint] or [game.currentMultiplier] changed (its
    dependency list), which in the sessions below is the render of the
    click. *)

From Stdlib Require Import ZArith QArith Qround Qabs Bool List String Lia Lqa.
From Stdlib Require Import Permutation Sorted.
Import ListNotations.

Open Scope Z_scope.

(** ** Comparisons on rationals, as booleans *)

Definition Qltb (x y : Q) : bool := negb (Qle_bool y x).
Definition Qgeb (x y : Q) : bool := Qle_bool y x.
Definition Qgtb (x y : Q) : bool := Qltb y x.

(** ** The state cells *)

(** [useState] cell [game] (lines 145-158). *)
Record Game := mkGame {
  isRunning : bool;
  isCrashed : bool;
  currentMultiplier : Q;
  crashPoint : option Q;               (* number | null *)
  userWagerXP : Z;
  userCashOutMultiplier : option Q;    (* number | null *)
  userWinningsXP : Z;
  autoCashOut : bool;
  userCashedOut : bool;
  isExploding : bool;
  isWaiting : bool;
  lastRounds : list Q
}.

(** [UserData] (lines 81-104).  The fields [name], [avatar_url], [xpHistory],
    [referralCode] and [role] are display and persistence data that no
    operation of the round engine or of the reward economy reads or writes;
    they are left out, here and in the stored record of [loadUserData]. *)
Record UserData := mkUserData {
  id : string;
  xp : Z;
  level : Z;
  totalWagered : Z;
  totalWon : Z;
  gamesPlayed : Z;
  biggestWin : Z;
  biggestMultiplier : Q;
  winStreak : Z;
  currentStreak : Z;
  lastPlayDate : option string;        (* string | null *)
  dailyStreak : Z;
  dailyGamesPlayed : Z;
  unlockedCosmetics : list string;
  activeCosmetic : string;
  referralEarnings : Z;
  referredUsers : Z
}.

(** [creator] (lines 190-200): only the boost multiplier takes part in the
    game logic. *)
Record Creator := mkCreator {
  xpBoostMultiplier : Q
}.

(** [autoPlay] (lines 202-211). *)
Record AutoPlay := mkAutoPlay {
  enabled : bool;
  wagerAmount : Z;
  cashOutAt : Q;
  stopOnWin : bool;
  stopOnLoss : bool;
  maxRounds : Z;
  currentRound : Z;
  isExecutingAutoRound : bool
}.

(** The values of all cells: what one render binds, and what the updaters
    act on. *)
Record State := mkState {
  game : Game;
  user : UserData;
  creator : Creator;
  autoPlay : AutoPlay;
  isAuthReady : bool
}.

(** The callback installed by [startMultiplierClimb] (lines 762-793): its
    mutable local [lastMultiplier] and the render whose constants it reads.
    [startTime] is not stored: a tick receives the elapsed time. *)
Record Climb := mkClimb {
  lastMultiplier : Q;
  closure : State
}.

(** The state cells together with [multiplierIntervalRef], the one mutable
    reference the round engine shares between renders. *)
Record World := mkWorld {
  store : State;
  multiplierIntervalRef : option Climb
}.

(** ** Updaters: [setGame(prev => ...)], [setUser(prev => ...)] *)

Definition setGame (f : Game -> Game) (s : State) : State :=
  mkState (f (game s)) (user s) (creator s) (autoPlay s) (isAuthReady s).

Definition setUser (f : UserData -> UserData) (s : State) : State :=
  mkState (game s) (f (user s)) (creator s) (autoPlay s) (isAuthReady s).

Definition setCreator (f : Creator -> Creator) (s : State) : State :=
  mkState (game s) (user s) (f (creator s)) (autoPlay s) (isAuthReady s).

Definition setAutoPlay (f : AutoPlay -> AutoPlay) (s : State) : State :=
  mkState (game s) (user s) (creator s) (f (autoPlay s)) (isAuthReady s).

(** The initial values of the cells (lines 145-213). *)
Definition initialGame : Game :=
  mkGame false false 1.00%Q None 50 None 0 false false false true [].

Definition initialUser : UserData :=
  mkUserData "guest_user" 1000 1 0 0 0 0 0%Q 0 0 None 0 0
             ["default"%string] "default" 0 0.

Definition initialState : State :=
  mkState initialGame initialUser (mkCreator 1.0%Q)
          (mkAutoPlay false 50 2.0%Q false false 10 0 false) false.

Definition initialWorld : World := mkWorld initialState None.

(** [!isAuthReady || user.id === 'guest_user'], the guard of every
    operation reserved to signed-in players. *)
Definition isGuest (r : State) : bool :=
  negb (isAuthReady r) || (id (user r) =? "guest_user")%string.

(** The four statuses of a round, read off the flags the way the action
    buttons and banners of the page are selected (lines 3157-3190). *)
Inductive Status := Waiting | Running | CashedOut | Crashed.

Definition status (g : Game) : Status :=
  if isRunning g then Running
  else if userCashedOut g then CashedOut
  else if isCrashed g then Crashed
  else Waiting.

(** ** Crash point generator (lines 283-291)

    [random] is the first [Math.random()], [offset] the one drawn inside
    the branch taken. *)
Definition generateCrashPoint (random offset : Q) : Q :=
  if Qltb random 0.5 then (1.01 + offset * 0.5)%Q
  else if Qltb random 0.8 then (1.5 + offset * 1.5)%Q
  else if Qltb random 0.95 then (3.0 + offset * 7.0)%Q
  else (10.0 + offset * 40.0)%Q.

(** ** Field updates: one function per field of [{ ...prev, field: v }] *)

Notation "x |> f" := (f x) (at level 68, left associativity, only parsing).

Definition set_isRunning (v : bool) (g : Game) : Game :=
  mkGame v (isCrashed g) (currentMultiplier g) (crashPoint g) (userWagerXP g)
         (userCashOutMultiplier g) (userWinningsXP g) (autoCashOut g)
         (userCashedOut g) (isExploding g) (isWaiting g) (lastRounds g).

Definition set_isCrashed (v : bool) (g : Game) : Game :=
  mkGame (isRunning g) v (currentMultiplier g) (crashPoint g) (userWagerXP g)
         (userCashOutMultiplier g) (userWinningsXP g) (autoCashOut g)
         (userCashedOut g) (isExploding g) (isWaiting g) (lastRounds g).

Definition set_currentMultiplier (v : Q) (g : Game) : Game :=
  mkGame (isRunning g) (isCrashed g) v (crashPoint g) (userWagerXP g)
         (userCashOutMultiplier g) (userWinningsXP g) (autoCashOut g)
         (userCashedOut g) (isExploding g) (isWaiting g) (lastRounds g).

Definition set_crashPoint (v : option Q) (g : Game) : Game :=
  mkGame (isRunning g) (isCrashed g) (currentMultiplier g) v (userWagerXP g)
         (userCashOutMultiplier g) (userWinningsXP g) (autoCashOut g)
         (userCashedOut g) (isExploding g) (isWaiting g) (lastRounds g).

Definition set_userWagerXP (v : Z) (g : Game) : Game :=
  mkGame (isRunning g) (isCrashed g) (currentMultiplier g) (crashPoint g) v
         (userCashOutMultiplier g) (userWinningsXP g) (autoCashOut g)
         (userCashedOut g) (isExploding g) (isWaiting g) (lastRounds g).

Definition set_userCashOutMultiplier (v : option Q) (g : Game) : Game :=
  mkGame (isRunning g) (isCrashed g) (currentMultiplier g) (crashPoint g)
         (userWagerXP g) v (userWinningsXP g) (autoCashOut g)
         (userCashedOut g) (isExploding g) (isWaiting g) (lastRounds g).

Definition set_userWinningsXP (v : Z) (g : Game) : Game :=
  mkGame (isRunning g) (isCrashed g) (currentMultiplier g) (crashPoint g)
         (userWagerXP g) (userCashOutMultiplier g) v (autoCashOut g)
         (userCashedOut g) (isExploding g) (isWaiting g) (lastRounds g).

Definition set_userCashedOut (v : bool) (g : Game) : Game :=
  mkGame (isRunning g) (isCrashed g) (currentMultiplier g) (crashPoint g)
         (userWagerXP g) (userCashOutMultiplier g) (userWinningsXP g)
         (autoCashOut g) v (isExploding g) (isWaiting g) (lastRounds g).

Definition set_autoCashOut (v : bool) (g : Game) : Game :=
  mkGame (isRunning g) (isCrashed g) (currentMultiplier g) (crashPoint g)
         (userWagerXP g) (userCashOutMultiplier g) (userWinningsXP g)
         v (userCashedOut g) (isExploding g) (isWaiting g) (lastRounds g).

Definition set_isExploding (v : bool) (g : Game) : Game :=
  mkGame (isRunning g) (isCrashed g) (currentMultiplier g) (crashPoint g)
         (userWagerXP g) (userCashOutMultiplier g) (userWinningsXP g)
         (autoCashOut g) (userCashedOut g) v (isWaiting g) (lastRounds g).

Definition set_isWaiting (v : bool) (g : Game) : Game :=
  mkGame (isRunning g) (isCrashed g) (currentMultiplier g) (crashPoint g)
         (userWagerXP g) (userCashOutMultiplier g) (userWinningsXP g)
         (autoCashOut g) (userCashedOut g) (isExploding g) v (lastRounds g).

Definition set_lastRounds (v : list Q) (g : Game) : Game :=
  mkGame (isRunning g) (isCrashed g) (currentMultiplier g) (crashPoint g)
         (userWagerXP g) (userCashOutMultiplier g) (userWinningsXP g)
         (autoCashOut g) (userCashedOut g) (isExploding g) (isWaiting g) v.

Definition set_xp (v : Z) (u : UserData) : UserData :=
  mkUserData (id u) v (level u) (totalWagered u) (totalWon u) (gamesPlayed u)
    (biggestWin u) (biggestMultiplier u) (winStreak u) (currentStreak u)
    (lastPlayDate u) (dailyStreak u) (dailyGamesPlayed u)
    (unlockedCosmetics u) (activeCosmetic u) (referralEarnings u)
    (referredUsers u).

Definition set_totalWagered (v : Z) (u : UserData) : UserData :=
  mkUserData (id u) (xp u) (level u) v (totalWon u) (gamesPlayed u)
    (biggestWin u) (biggestMultiplier u) (winStreak u) (currentStreak u)
    (lastPlayDate u) (dailyStreak u) (dailyGamesPlayed u)
    (unlockedCosmetics u) (activeCosmetic u) (referralEarnings u)
    (referredUsers u).

Definition set_totalWon (v : Z) (u : UserData) : UserData :=
  mkUserData (id u) (xp u) (level u) (totalWagered u) v (gamesPlayed u)
    (biggestWin u) (biggestMultiplier u) (winStreak u) (currentStreak u)
    (lastPlayDate u) (dailyStreak u) (dailyGamesPlayed u)
    (unlockedCosmetics u) (activeCosmetic u) (referralEarnings u)
    (referredUsers u).

Definition set_gamesPlayed (v : Z) (u : UserData) : UserData :=
  mkUserData (id u) (xp u) (level u) (totalWagered u) (totalWon u) v
    (biggestWin u) (biggestMultiplier u) (winStreak u) (currentStreak u)
    (lastPlayDate u) (dailyStreak u) (dailyGamesPlayed u)
    (unlockedCosmetics u) (activeCosmetic u) (referralEarnings u)
    (referredUsers u).

Definition set_biggestWin (v : Z) (u : UserData) : UserData :=
  mkUserData (id u) (xp u) (level u) (totalWagered u) (totalWon u)
    (gamesPlayed u) v (biggestMultiplier u) (winStreak u) (currentStreak u)
    (lastPlayDate u) (dailyStreak u) (dailyGamesPlayed u)
    (unlockedCosmetics u) (activeCosmetic u) (referralEarnings u)
    (referredUsers u).

Definition set_biggestMultiplier (v : Q) (u : UserData) : UserData :=
  mkUserData (id u) (xp u) (level u) (totalWagered u) (totalWon u)
    (gamesPlayed u) (biggestWin u) v (winStreak u) (currentStreak u)
    (lastPlayDate u) (dailyStreak u) (dailyGamesPlayed u)
    (unlockedCosmetics u) (activeCosmetic u) (referralEarnings u)
    (referredUsers u).

Definition set_winStreak (v : Z) (u : UserData) : UserData :=
  mkUserData (id u) (xp u) (level u) (totalWagered u) (totalWon u)
    (gamesPlayed u) (biggestWin u) (biggestMultiplier u) v (currentStreak u)
    (lastPlayDate u) (dailyStreak u) (dailyGamesPlayed u)
    (unlockedCosmetics u) (activeCosmetic u) (referralEarnings u)
    (referredUsers u).

Definition set_currentStreak (v : Z) (u : UserData) : UserData :=
  mkUserData (id u) (xp u) (level u) (totalWagered u) (totalWon u)
    (gamesPlayed u) (biggestWin u) (biggestMultiplier u) (winStreak u) v
    (lastPlayDate u) (dailyStreak u) (dailyGamesPlayed u)
    (unlockedCosmetics u) (activeCosmetic u) (referralEarnings u)
    (referredUsers u).

Definition set_lastPlayDate (v : option string) (u : UserData) : UserData :=
  mkUserData (id u) (xp u) (level u) (totalWagered u) (totalWon u)
    (gamesPlayed u) (biggestWin u) (biggestMultiplier u) (winStreak u)
    (currentStreak u) v (dailyStreak u) (dailyGamesPlayed u)
    (unlockedCosmetics u) (activeCosmetic u) (referralEarnings u)
    (referredUsers u).

Definition set_dailyStreak (v : Z) (u : UserData) : UserData :=
  mkUserData (id u) (xp u) (level u) (totalWagered u) (totalWon u)
    (gamesPlayed u) (biggestWin u) (biggestMultiplier u) (winStreak u)
    (currentStreak u) (lastPlayDate u) v (dailyGamesPlayed u)
    (unlockedCosmetics u) (activeCosmetic u) (referralEarnings u)
    (referredUsers u).

Definition set_dailyGamesPlayed (v : Z) (u : UserData) : UserData :=
  mkUserData (id u) (xp u) (level u) (totalWagered u) (totalWon u)
    (gamesPlayed u) (biggestWin u) (biggestMultiplier u) (winStreak u)
    (currentStreak u) (lastPlayDate u) (dailyStreak u) v
    (unlockedCosmetics u) (activeCosmetic u) (referralEarnings u)
    (referredUsers u).

Definition set_unlockedCosmetics (v : list string) (u : UserData) : UserData :=
  mkUserData (id u) (xp u) (level u) (totalWagered u) (totalWon u)
    (gamesPlayed u) (biggestWin u) (biggestMultiplier u) (winStreak u)
    (currentStreak u) (lastPlayDate u) (dailyStreak u) (dailyGamesPlayed u)
    v (activeCosmetic u) (referralEarnings u) (referredUsers u).

Definition set_activeCosmetic (v : string) (u : UserData) : UserData :=
  mkUserData (id u) (xp u) (level u) (totalWagered u) (totalWon u)
    (gamesPlayed u) (biggestWin u) (biggestMultiplier u) (winStreak u)
    (currentStreak u) (lastPlayDate u) (dailyStreak u) (dailyGamesPlayed u)
    (unlockedCosmetics u) v (referralEarnings u) (referredUsers u).

Definition set_xpBoostMultiplier (v : Q) (c : Creator) : Creator :=
  mkCreator v.

(** [list.includes(x)] on strings. *)
Definition includes (l : list string) (x : string) : bool :=
  existsb (String.eqb x) l.

(** ** Round engine *)

(** [resetRound] (lines 619-632).  The wager is reset to the auto-play
    wager of the render that created the callback. *)
Definition resetRound (r s : State) : State :=
  setGame (fun prev =>
    prev |> set_isWaiting true
         |> set_isRunning false
         |> set_isCrashed false
         |> set_userCashedOut false
         |> set_userWagerXP (wagerAmount (autoPlay r))
         |> set_userCashOutMultiplier None
         |> set_userWinningsXP 0
         |> set_isExploding false
         |> set_currentMultiplier 1.00%Q) s.

(** The body of the one-second timers of [crashGame] and [cashOut]:
    [if (!autoPlay.enabled) resetRound()]. *)
Definition delayedReset (r s : State) : State :=
  if enabled (autoPlay r) then s else resetRound r s.

(** [createShareableAchievement] (lines 522-558), for the two calls the page
    makes: [('big_win', { amount, multiplier })] in [cashOut] and
    [('win_streak', { streak })] in the timer of [updateWinStreak].  A guest
    render returns at the guard.  For a signed-in render the function first
    builds the table of its three messages (lines 528-532), all three
    template strings at once: the first call leaves [data.winnings]
    undefined, the second [data.amount], and [undefined.toLocaleString()]
    throws a [TypeError].  The clipboard code behind the table and the 50 XP
    it grants for sharing are never reached.  [None] is the exception. *)
Definition createShareableAchievement (r s : State) : option State :=
  if isGuest r then Some s else None.

(** [updateWinStreak] (lines 684-706).  On every fifth win in a row the
    source also queues a timer that opens a Mystery Box and then calls
    [createShareableAchievement]; the Mystery Box is an operation of its own
    ([mysteryBoxDue] says when it is due), and the exception of the second
    call ends the timer callback and nothing else. *)
Definition updateWinStreak (won : bool) (r s : State) : State :=
  if isGuest r then s
  else if won then
    setUser (fun prev =>
      let newCurrentStreak := currentStreak prev + 1 in
      let newWinStreak :=
        if newCurrentStreak >? winStreak prev then newCurrentStreak
        else winStreak prev in
      prev |> set_currentStreak newCurrentStreak
           |> set_winStreak newWinStreak) s
  else setUser (set_currentStreak 0) s.

Definition mysteryBoxDue (r s : State) : bool :=
  negb (isGuest r) &&
  (let newCurrentStreak := currentStreak (user s) + 1 in
   (newCurrentStreak >? 0) && (Z.rem newCurrentStreak 5 =? 0)).

(** [analyzeNearMiss] (lines 343-353): whether the near-miss toast fires.
    [!x] is true of [null] and of [0]. *)
Definition analyzeNearMiss (userCashOut actualCrash : option Q) : bool :=
  match userCashOut, actualCrash with
  | Some u, Some a =>
      if Qeq_bool u 0 || Qeq_bool a 0 then false
      else Qltb (Qabs (u - a)) 0.1 && Qltb u a
  | _, _ => false
  end.

(** What [crashGame] leaves on the timer queue. *)
Inductive FollowUp := SecondChanceOffer | DelayedReset.

(** [crashGame] (lines 708-760).  [chance] is the [Math.random()] that
    decides whether a second chance is offered. *)
Definition crashGame (chance : Q) (r : State) (w : World) : World * FollowUp :=
  let s0 := setGame (fun prev =>
              prev |> set_isRunning false
                   |> set_isCrashed true
                   |> set_isExploding true) (store w) in
  let '(s1, next) :=
    if negb (userCashedOut (game r)) then
      let s := if isAuthReady r && negb (id (user r) =? "guest_user")%string
               then setUser (fun prev =>
                      prev |> set_totalWagered
                                (totalWagered prev + userWagerXP (game r))
                           |> set_gamesPlayed (gamesPlayed prev + 1)
                           |> set_dailyGamesPlayed (dailyGamesPlayed prev + 1))
                      s0
               else s0 in
      (updateWinStreak false r s,
       if Qltb chance 0.3 then SecondChanceOffer else DelayedReset)
    else (s0, DelayedReset) in
  let s2 := setGame (fun prev =>
              set_lastRounds
                (firstn 10 (currentMultiplier prev :: lastRounds prev)) prev)
              s1 in
  (mkWorld s2 None, next).

(** The value computed by one tick, [1 + Math.pow(elapsed / 1000, 2) * 0.1],
    [elapsed] in milliseconds. *)
Definition newMultiplierAt (elapsed : Z) : Q :=
  (1 + ((inject_Z elapsed / 1000) ^ 2) * 0.1)%Q.

(** The second half of a tick (lines 787-791): the displayed multiplier
    moves when the new value is more than 0.01 away from the last one. *)
Definition climbUpdate (c : Climb) (newMultiplier : Q) (w : World) : World :=
  if Qgtb (Qabs (newMultiplier - lastMultiplier c)) 0.01 then
    mkWorld (setGame (set_currentMultiplier newMultiplier) (store w))
            (Some (mkClimb newMultiplier (closure c)))
  else w.

(** One run of the interval callback (lines 768-792), [elapsed] milliseconds
    after the round started.  [game.crashPoint] is read from the render the
    callback closes over; [null] and [0] are falsy.  The second component is
    the render of the [crashGame] the tick has put on the timer queue, if it
    did. *)
Definition climbTick (elapsed : Z) (w : World) : World * option State :=
  match multiplierIntervalRef w with
  | None => (w, None)
  | Some c =>
      let r := closure c in
      let newMultiplier := newMultiplierAt elapsed in
      match crashPoint (game r) with
      | Some cp =>
          if negb (Qeq_bool cp 0) && Qgeb newMultiplier cp then
            (mkWorld (setGame (set_currentMultiplier cp) (store w)) None,
             Some r)
          else (climbUpdate c newMultiplier w, None)
      | None => (climbUpdate c newMultiplier w, None)
      end
  end.

(** The interval fires every 10 ms ([setInterval(..., 10)]): the first [n]
    ticks, and a run of the callback over a list of firing times.  Once a tick
    has scheduled [crashGame] the interval is cleared and the run stops. *)
Definition tickTimes (n : nat) : list Z :=
  map (fun k => 10 * Z.of_nat k) (seq 1 n).

Definition runTicks (times : list Z) (w : World) : World * option State :=
  fold_left (fun acc elapsed =>
               match snd acc with
               | Some _ => acc
               | None => climbTick elapsed (fst acc)
               end) times (w, None).

(** [startMultiplierClimb] (lines 762-793): a new interval replaces the old
    one; its callback closes over the render [r] of its creator. *)
Definition startMultiplierClimb (r : State) (w : World) : World :=
  mkWorld (store w) (Some (mkClimb 1.00%Q r)).

(** [startRound] (lines 795-804). *)
Definition startRound (random offset : Q) (r : State) (w : World) : World :=
  startMultiplierClimb r
    (mkWorld
       (setGame (fun prev =>
          prev |> set_crashPoint (Some (generateCrashPoint random offset))
               |> set_currentMultiplier 1.00%Q
               |> set_isExploding false
               |> set_isCrashed false) (store w))
       (multiplierIntervalRef w)).

(** [placeWager] (lines 806-851). *)
Definition placeWager (random offset : Q) (r : State) (w : World) : World :=
  if isRunning (game r) then w
  else
    let wager := userWagerXP (game r) in
    if wager <=? 0 then w
    else if wager >? xp (user r) then w
    else
      let s1 := setUser (fun prev => set_xp (xp prev - wager) prev) (store w) in
      let s2 := setGame (fun prev =>
                  prev |> set_userWagerXP wager
                       |> set_isWaiting false
                       |> set_isRunning true
                       |> set_userCashedOut false
                       |> set_isCrashed false
                       |> set_isExploding false
                       |> set_userCashOutMultiplier None
                       |> set_userWinningsXP 0) s1 in
      startRound random offset r (mkWorld s2 (multiplierIntervalRef w)).

(** [Math.floor(game.userWagerXP * multiplier * creator.xpBoostMultiplier)]
    (line 863). *)
Definition winningsOf (wager : Z) (multiplier boost : Q) : Z :=
  Qfloor (inject_Z wager * multiplier * boost).

(** [cashOut] (lines 853-910).  A win above 1000 XP is shared before the
    round is stopped (lines 889-891).  When that call throws, the handler
    ends there: the two updaters queued before it (lines 865-880) are
    applied, and what follows the call is skipped: the interval is not
    cleared, [isRunning] is not reset, the win streak is not updated and no
    reset timer is started. *)
Definition cashOut (r : State) (w : World) : World :=
  if negb (isRunning (game r)) || userCashedOut (game r) then w
  else
    let multiplier := currentMultiplier (game r) in
    let winnings :=
      winningsOf (userWagerXP (game r)) multiplier
                 (xpBoostMultiplier (creator r)) in
    let s1 := setGame (fun prev =>
                prev |> set_userCashedOut true
                     |> set_userCashOutMultiplier (Some multiplier)
                     |> set_userWinningsXP winnings) (store w) in
    let s2 := setUser (fun prev =>
                prev |> set_xp (xp prev + winnings)
                     |> set_totalWon (totalWon prev + winnings)
                     |> set_totalWagered
                          (totalWagered prev + userWagerXP (game r))
                     |> set_gamesPlayed (gamesPlayed prev + 1)
                     |> set_dailyGamesPlayed (dailyGamesPlayed prev + 1)
                     |> set_biggestWin
                          (if winnings >? biggestWin prev then winnings
                           else biggestWin prev)
                     |> set_biggestMultiplier
                          (if Qgtb multiplier (biggestMultiplier prev)
                           then multiplier else biggestMultiplier prev)) s1 in
    let shared := if winnings >? 1000 then createShareableAchievement r s2
                  else Some s2 in
    match shared with
    | None => mkWorld s2 (multiplierIntervalRef w)
    | Some s3 =>
        let s4 := setGame (fun prev =>
                    prev |> set_isRunning false |> set_isCrashed false) s3 in
        mkWorld (updateWinStreak true r s4) None
    end.

(** [setWager], [increaseWager], [decreaseWager] (lines 912-922) and the
    effect that copies the auto-play wager into the round (lines 1675-1677);
    the auto-play wager itself is [parseInt] of a text field (line 3224). *)
Definition setWager (amount : Z) (s : State) : State :=
  setGame (set_userWagerXP (Z.max 10 (amount / 10 * 10))) s.

Definition increaseWager (r s : State) : State :=
  setGame (fun prev =>
    set_userWagerXP (Z.min (xp (user r)) (userWagerXP prev + 10)) prev) s.

Definition decreaseWager (s : State) : State :=
  setGame (fun prev =>
    set_userWagerXP (Z.max 10 (userWagerXP prev - 10)) prev) s.

Definition syncAutoWager (r s : State) : State :=
  setGame (set_userWagerXP (wagerAmount (autoPlay r))) s.

(** ** Spending XP *)

(** The two buttons of the second-chance modal. *)
Inductive SecondChanceChoice := Pay200 | NoThanks.

(** [offerSecondChance] (lines 634-682) followed by the player's choice.
    The actions of the modal are closures of the same render [r] as
    [offerSecondChance] itself. *)
Definition offerSecondChance (choice : SecondChanceChoice) (r s : State)
  : State :=
  if isGuest r then resetRound r s
  else
    let lostWager := userWagerXP (game r) in
    match choice with
    | Pay200 =>
        if xp (user r) >=? 200 then
          s |> setUser (fun prev => set_xp (xp prev - 200) prev)
            |> setUser (fun prev =>
                 prev |> set_totalWagered (totalWagered prev - lostWager)
                      |> set_gamesPlayed (gamesPlayed prev - 1)
                      |> set_dailyGamesPlayed (dailyGamesPlayed prev - 1))
            |> resetRound r
        else resetRound r s
    | NoThanks => resetRound r s
    end.

(** [buyCosmetic] (lines 1298-1314). *)
Definition buyCosmetic (cid : string) (price : Z) (r s : State) : State :=
  if isGuest r then s
  else if includes (unlockedCosmetics (user r)) cid then s
  else if xp (user r) <? price then s
  else setUser (fun prev =>
         prev |> set_xp (xp prev - price)
              |> set_unlockedCosmetics (unlockedCosmetics prev ++ [cid])
              |> set_activeCosmetic cid) s.

(** ** Reward economy *)

Inductive RewardType := xp_reward | cosmetic | multiplier_boost.
Inductive Rarity := common | rare | epic.

(** [interface Reward] (lines 56-65).  The cosmetic identifier is the field
    [id] of the source; the optional fields are [option]s. *)
Record Reward := mkReward {
  type : RewardType;
  rarity : Rarity;
  message : string;
  amount : option Z;
  cosmeticId : option string;
  value : option Q;
  duration : option Z;
  weight : Q
}.

(** The Mystery Box table (lines 567-572). *)
Definition rewards : list Reward :=
  [ mkReward xp_reward common "Bonus 500 XP!" (Some 500) None None None 5%Q;
    mkReward xp_reward rare "Big 1000 XP Boost!" (Some 1000) None None None 2%Q;
    mkReward cosmetic epic "Golden Ring Cosmetic!" None (Some "golden_ring"%string)
             None None 1%Q;
    mkReward multiplier_boost rare "1.1x XP for 10 min!" None None
             (Some 1.1%Q) (Some 600) 2%Q ].

(** [rewardsList.reduce((sum, r) => sum + r.weight, 0)] (line 575). *)
Definition totalWeight (rewardsList : list Reward) : Q :=
  fold_left (fun sum r => (sum + weight r)%Q) rewardsList 0%Q.

(** The [for] loop of the sampler (lines 577-582): [None] when the loop runs
    off the end of the list. *)
Fixpoint walkRewards (rewardsList : list Reward) (random : Q) : option Reward :=
  match rewardsList with
  | [] => None
  | reward :: rest =>
      if Qltb random (weight reward) then Some reward
      else walkRewards rest (random - weight reward)%Q
  end.

(** The sampler once [random] is drawn: the loop, then the fallback
    [rewardsList[0]], which is [undefined] ([None]) on an empty list. *)
Definition sampleReward (rewardsList : list Reward) (random : Q)
  : option Reward :=
  match walkRewards rewardsList random with
  | Some reward => Some reward
  | None => hd_error rewardsList
  end.

(** [getWeightedRandomReward] (lines 574-584); [u] is [Math.random()]. *)
Definition getWeightedRandomReward (rewardsList : list Reward) (u : Q)
  : option Reward :=
  sampleReward rewardsList (u * totalWeight rewardsList)%Q.

(** The total weight of a prefix of the list, summed left to right. *)
Definition weightSum (l : list Reward) : Q :=
  fold_right (fun r acc => (weight r + acc)%Q) 0%Q l.

(** [updateDailyStreak] (lines 924-959).  [today] and [yesterdayStr] are the
    two dates the function derives from the clock.  The test of the bonus
    reads [user.dailyStreak] from the render; the amount is computed by an
    updater, from the [prev] left by the updaters queued before it. *)
Definition updateDailyStreak (today yesterdayStr : string) (r s : State)
  : State :=
  if isGuest r then s
  else
    match lastPlayDate (user r) with
    | None =>
        setUser (fun prev =>
          prev |> set_dailyStreak 1 |> set_lastPlayDate (Some today)) s
    | Some lastPlay =>
        if (lastPlay =? "")%string then
          setUser (fun prev =>
            prev |> set_dailyStreak 1 |> set_lastPlayDate (Some today)) s
        else if (lastPlay =? today)%string then s
        else
          let s1 :=
            if (lastPlay =? yesterdayStr)%string then
              setUser (fun prev =>
                set_dailyStreak (dailyStreak prev + 1) prev) s
            else setUser (set_dailyStreak 1) s in
          let s2 := setUser (fun prev =>
                      prev |> set_lastPlayDate (Some today)
                           |> set_dailyGamesPlayed 0) s1 in
          if (dailyStreak (user r) + 1 >=? 3)
             && (Z.rem (dailyStreak (user r) + 1) 3 =? 0)
          then setUser (fun prev =>
                 set_xp (xp prev + 100 * (dailyStreak prev + 1)) prev) s2
          else s2
    end.

(** The daily-streak bonus granted by one call: the XP it adds. *)
Definition dailyStreakBonus (today yesterdayStr : string) (r s : State) : Z :=
  xp (user (updateDailyStreak today yesterdayStr r s)) - xp (user s).

(** ** Session *)

(** The [onChange] of the auto-play wager field (line 3224),
    [wagerAmount: parseInt(e.target.value)], for a field that holds the
    integer [v]. *)
Definition setAutoWagerAmount (v : Z) (s : State) : State :=
  setAutoPlay (fun prev =>
    mkAutoPlay (enabled prev) v (cashOutAt prev) (stopOnWin prev)
               (stopOnLoss prev) (maxRounds prev) (currentRound prev)
               (isExecutingAutoRound prev)) s.

(** The [onChange] of the auto-play target field (line 3236),
    [cashOutAt: parseFloat(e.target.value)], for a field that holds the
    number [v], and of the automatic cash-out checkbox (line 3245). *)
Definition setCashOutAt (v : Q) (s : State) : State :=
  setAutoPlay (fun prev =>
    mkAutoPlay (enabled prev) (wagerAmount prev) v (stopOnWin prev)
               (stopOnLoss prev) (maxRounds prev) (currentRound prev)
               (isExecutingAutoRound prev)) s.

Definition setAutoCashOut (checked : bool) (s : State) : State :=
  setGame (set_autoCashOut checked) s.

(** [signInUser] (lines 1074-1083) for a player with no stored record, for
    whom [fetchUserData] (lines 1038-1051) sets [xp: 1000]. *)
Definition signInUser (uid : string) (s : State) : State :=
  let s1 := mkState (game s) (user s) (creator s) (autoPlay s) true in
  setUser (fun prev =>
    mkUserData uid 1000 (level prev) (totalWagered prev) (totalWon prev)
      (gamesPlayed prev) (biggestWin prev) (biggestMultiplier prev)
      (winStreak prev) (currentStreak prev) (lastPlayDate prev)
      (dailyStreak prev) (dailyGamesPlayed prev) (unlockedCosmetics prev)
      (activeCosmetic prev) 0 0) s1.

(** A click on a button of the page runs the handler of the latest render:
    the render it reads is the current state. *)
Definition clickPlaceWager (random offset : Q) (w : World) : World :=
  placeWager random offset (store w) w.

Definition clickCashOut (w : World) : World :=
  cashOut (store w) w.

(** The state of the page after [v] has been typed into the auto-play wager
    field: the effect of lines 1675-1677 copies it into the round. *)
Definition typedAutoWager (v : Z) (s : State) : State :=
  let s1 := setAutoWagerAmount v s in
  syncAutoWager s1 s1.

(** ** Sessions used as test inputs

    [Round1]: a guest opens the page and plays the first round, for which
    the crash point [1.01 + 0.01 * 0.5 = 1.015] is drawn.  The climb ticks
    every 10 ms for half a second, then the player clicks CASH OUT. *)
Module Round1.
Definition wagered : World := clickPlaceWager 0.2 0.01 initialWorld.
Definition climbed : World := fst (runTicks (tickTimes 50) wagered).
Definition cashed : World := clickCashOut climbed.
End Round1.

(** [EarlyCashOut]: a guest plays the first round, for which the crash point
    [1.01 + 0.5 * 0.5 = 1.26] is drawn, and cashes out 350 ms after its
    start, below the crash point; the one-second timer of [cashOut], a
    closure of the render of the click, resets the round. *)
Module EarlyCashOut.
Definition wagered : World := clickPlaceWager 0.2 0.5 initialWorld.
Definition climbed : World := fst (runTicks (tickTimes 35) wagered).
Definition cashed : World := clickCashOut climbed.
Definition reset : World :=
  mkWorld (delayedReset (store climbed) (store cashed))
          (multiplierIntervalRef cashed).
End EarlyCashOut.

(** [LowWager]: a guest types 5 into the auto-play wager field and clicks
    PLACE WAGER. *)
Module LowWager.
Definition typed : World := mkWorld (typedAutoWager 5 initialState) None.
Definition wagered : World := clickPlaceWager 0.2 0.5 typed.
End LowWager.

(** [Revive]: a new player signs in, sets the wager to 900 and plays two
    rounds.  The first round is cashed out 350 ms after its start, and the
    one-second timer of [cashOut] resets the round.  The second round
    crashes, a second chance is offered and the player pays for it.
    The render that [cashOut]'s timer closes over is the one of the click;
    the render of the second round's climb and of everything it schedules
    ([crashGame], [offerSecondChance] and the actions of the modal) is the one
    in which the second wager was clicked. *)
Module Revive.
Definition signedUp : State := signInUser "user_1" initialState.
Definition signedIn : World :=
  mkWorld (typedAutoWager 900
             (updateDailyStreak "2024-03-10" "2024-03-09" signedUp signedUp))
          None.
Definition wagered1 : World := clickPlaceWager 0.2 0.5 signedIn.
Definition climbed1 : World := fst (runTicks (tickTimes 35) wagered1).
Definition cashed1 : World := clickCashOut climbed1.
Definition reset1 : World :=
  mkWorld (delayedReset (store climbed1) (store cashed1))
          (multiplierIntervalRef cashed1).
Definition wagered2 : World := clickPlaceWager 0.9 0.5 reset1.
Definition crashTick : World * option State :=
  runTicks (tickTimes 170) wagered2.
Definition crashed : World * FollowUp :=
  crashGame 0.1 (store reset1) (fst crashTick).
Definition revived : State :=
  offerSecondChance Pay200 (store reset1) (store (fst crashed)).
End Revive.

(** [Streak]: a signed-in player with a daily streak of 2 opens the page on
    2024-03-10, having last played nine days before ([lapsed]) or the day
    before ([kept]). *)
Module Streak.
Definition player (lastPlay : string) : State :=
  setUser (fun prev =>
    prev |> set_dailyStreak 2 |> set_lastPlayDate (Some lastPlay))
    (signInUser "user_1" initialState).
Definition lapsed : State :=
  updateDailyStreak "2024-03-10" "2024-03-09"
    (player "2024-03-01") (player "2024-03-01").
Definition kept : State :=
  updateDailyStreak "2024-03-10" "2024-03-09"
    (player "2024-03-09") (player "2024-03-09").
End Streak.

(** ** Boosts *)

(** [activateXPBoost] (lines 355-362): the multiplier is set at once; the
    timer it starts runs [expireXPBoost] after [duration] seconds. *)
Definition activateXPBoost (multiplier : Q) (s : State) : State :=
  setCreator (set_xpBoostMultiplier multiplier) s.

Definition expireXPBoost (s : State) : State :=
  setCreator (set_xpBoostMultiplier 1.0%Q) s.

(** [BigWin]: a signed-in player with 1000 XP, for whom the boost 3 of the
    shop is active, wagers the whole balance and clicks CASH OUT 350 ms into
    the round: the winnings are [floor (1000 * 1.01024 * 3) = 3030] XP. *)
Module BigWin.
Definition boosted : World :=
  mkWorld (activateXPBoost 3
             (typedAutoWager 1000 (signInUser "user_1" initialState)))
          None.
Definition wagered : World := clickPlaceWager 0.2 0.5 boosted.
Definition climbed : World := fst (runTicks (tickTimes 35) wagered).
Definition cashed : World := clickCashOut climbed.
End BigWin.

(** ** Mystery Box *)

(** The body of the timer of [triggerMysteryBox] (lines 589-612): the reward
    is applied by updaters, so a cosmetic is looked up in the current
    state. *)
Definition applyReward (reward : Reward) (s : State) : State :=
  match type reward, amount reward with
  | xp_reward, Some xpAmount =>
      setUser (fun prev => set_xp (xp prev + xpAmount) prev) s
  | _, _ =>
      match type reward, cosmeticId reward with
      | cosmetic, Some cid =>
          setUser (fun prev =>
            if negb (includes (unlockedCosmetics prev) cid) then
              prev |> set_unlockedCosmetics (unlockedCosmetics prev ++ [cid])
                   |> set_activeCosmetic cid
            else set_xp (xp prev + 200) prev) s
      | _, _ =>
          match type reward, value reward, duration reward with
          | multiplier_boost, Some multiplierValue, Some _ =>
              activateXPBoost multiplierValue s
          | _, _, _ => s
          end
      end
  end.

(** [triggerMysteryBox] (lines 560-617); [u] is the [Math.random()] of the
    sampler. *)
Definition triggerMysteryBox (u : Q) (r s : State) : State :=
  if isGuest r then s
  else match getWeightedRandomReward rewards u with
       | Some reward => applyReward reward s
       | None => s
       end.

(** [buyPremiumCosmetic] (lines 1316-1340) followed by the player's answer
    to the modal. *)
Definition buyPremiumCosmetic (cid : string) (confirm : bool) (r s : State)
  : State :=
  if isGuest r then s
  else if confirm then
    if negb (includes (unlockedCosmetics (user r)) cid) then
      setUser (fun prev =>
        prev |> set_unlockedCosmetics (unlockedCosmetics prev ++ [cid])
             |> set_activeCosmetic cid) s
    else s
  else s.

(** ** Auto-play *)

Definition onStore (f : State -> State) (w : World) : World :=
  mkWorld (f (store w)) (multiplierIntervalRef w).

(** [autoPlayStop] (lines 1343-1346). *)
Definition autoPlayStop (s : State) : State :=
  setAutoPlay (fun prev =>
    mkAutoPlay false (wagerAmount prev) (cashOutAt prev) (stopOnWin prev)
               (stopOnLoss prev) (maxRounds prev) 0 false) s.

(** [autoPlayExecuteRound] up to the wager (lines 1348-1367).  The boolean
    says whether the wager was attempted, after which the function installs
    its polling interval. *)
Definition autoPlayExecuteRound (random offset : Q) (r : State) (w : World)
  : World * bool :=
  if negb (enabled (autoPlay r))
     || (currentRound (autoPlay r) >=? maxRounds (autoPlay r))
  then (onStore autoPlayStop w, false)
  else if xp (user r) <? wagerAmount (autoPlay r)
  then (onStore autoPlayStop w, false)
  else
    let w1 := onStore (setAutoPlay (fun prev =>
                mkAutoPlay (enabled prev) (wagerAmount prev) (cashOutAt prev)
                           (stopOnWin prev) (stopOnLoss prev) (maxRounds prev)
                           (currentRound prev + 1)
                           (isExecutingAutoRound prev))) w in
    (placeWager random offset r w1, true).

(** What one run of the polling interval of [autoPlayExecuteRound] decides
    (lines 1376-1410). *)
Inductive Poll := PollStopped | PollNextRound | PollCashedOut | PollWaiting.

Definition autoPlayPoll (r : State) (w : World) : World * Poll :=
  if negb (isRunning (game r)) && isWaiting (game r) then
    (onStore autoPlayStop w, PollStopped)
  else if negb (isRunning (game r)) then
    if stopOnWin (autoPlay r) && userCashedOut (game r) then
      (onStore autoPlayStop w, PollStopped)
    else if stopOnLoss (autoPlay r) && isCrashed (game r)
            && negb (userCashedOut (game r)) then
      (onStore autoPlayStop w, PollStopped)
    else (w, PollNextRound)
  else if autoCashOut (game r)
          && Qgeb (currentMultiplier (game r)) (cashOutAt (autoPlay r)) then
    (cashOut r w, PollCashedOut)
  else (w, PollWaiting).

(** [autoPlayStart] (lines 1416-1440).  When the render shows a running
    round the function only waits for [game.isRunning] of that render to
    turn false. *)
Definition autoPlayStart (random offset : Q) (r : State) (w : World) : World :=
  if isGuest r then w
  else if isExecutingAutoRound (autoPlay r) then w
  else
    let w1 := onStore (setAutoPlay (fun prev =>
                mkAutoPlay true (wagerAmount prev) (cashOutAt prev)
                           (stopOnWin prev) (stopOnLoss prev) (maxRounds prev)
                           0 (isExecutingAutoRound prev))) w in
    if isRunning (game r) then w1
    else
      let w2 := onStore (setAutoPlay (fun prev =>
                  mkAutoPlay (enabled prev) (wagerAmount prev) (cashOutAt prev)
                             (stopOnWin prev) (stopOnLoss prev)
                             (maxRounds prev) (currentRound prev) true)) w1 in
      fst (autoPlayExecuteRound random offset r w2).

(** [AutoRound]: the render of a signed-in player in which auto-play is
    switched on and its first round is about to be executed. *)
Module AutoRound.
End AutoRound.

(** [AutoCash]: a signed-in player ticks the automatic cash-out, sets the
    target to 1.01 and wagers 50 XP; [polled] is a run of the polling
    interval whose render shows the round 350 ms after its start, at
    1.01024. *)
Module AutoCash.
Definition armed : World :=
  mkWorld (setAutoCashOut true
             (setCashOutAt 1.01 (signInUser "user_1" initialState)))
          None.
Definition wagered : World := clickPlaceWager 0.2 0.5 armed.
Definition climbed : World := fst (runTicks (tickTimes 35) wagered).
Definition polled : World * Poll := autoPlayPoll (store climbed) climbed.
End AutoCash.

(** ** Leaderboard *)

(** [LeaderboardEntry] (lines 107-115) without name and avatar.  The fields
    are [id], [xp], [biggestMultiplier], [gamesPlayed] of the source;
    [lb_biggestMultiplier] is the number [parseFloat] reads from the stored
    string. *)
Record LeaderboardEntry := mkEntry {
  lb_id : string;
  lb_xp : Z;
  lb_biggestMultiplier : Q;
  lb_gamesPlayed : Z;
  isCurrentUser : bool
}.

(** [x.toFixed(2)] read back as a number, for [x >= 0]: the nearest multiple
    of 0.01, the larger one on a tie. *)
Definition toFixed2 (x : Q) : Q := (Qfloor (x * 100 + 0.5) # 100)%Q.

(** The comparator of line 991 puts [a] before [b] when it is negative; this
    is "the comparator is not positive". *)
Definition rankedBefore (a b : LeaderboardEntry) : bool :=
  if negb (lb_xp b =? lb_xp a) then lb_xp b <? lb_xp a
  else Qle_bool (lb_biggestMultiplier b) (lb_biggestMultiplier a).

(** [Array.prototype.sort] is a stable sort; with this comparator every
    stable sort returns the list that insertion from the right builds. *)
Fixpoint insertRanked (x : LeaderboardEntry) (l : list LeaderboardEntry)
  : list LeaderboardEntry :=
  match l with
  | [] => [x]
  | y :: rest =>
      if rankedBefore x y then x :: y :: rest
      else y :: insertRanked x rest
  end.

Fixpoint sortRanked (l : list LeaderboardEntry) : list LeaderboardEntry :=
  match l with
  | [] => []
  | x :: rest => insertRanked x (sortRanked rest)
  end.

Definition markCurrent (uid : string) (player : LeaderboardEntry)
  : LeaderboardEntry :=
  mkEntry (lb_id player) (lb_xp player) (lb_biggestMultiplier player)
          (lb_gamesPlayed player) (lb_id player =? uid)%string.

Definition ownEntry (u : UserData) : LeaderboardEntry :=
  mkEntry (id u) (xp u) (toFixed2 (biggestMultiplier u)) (gamesPlayed u) true.

(** The merge of [setupRealtimeLeaderboard] (lines 970-997), for a signed-in
    player and the rows [leaderboardData] fetched from the platform. *)
Definition mergeLeaderboard (leaderboardData : list LeaderboardEntry)
  (currentUserData : UserData) : list LeaderboardEntry :=
  let tempLeaderboard := map (markCurrent (id currentUserData)) leaderboardData in
  let userFound := existsb isCurrentUser tempLeaderboard in
  if negb userFound && negb (id currentUserData =? "guest_user")%string
  then sortRanked (tempLeaderboard ++ [ownEntry currentUserData])
  else tempLeaderboard.

(** ** Persistence *)

(** The XP history of [updateUserData] (lines 481-490): today's entry is
    overwritten, another day opens a new entry. *)
Definition updateXpHistory (today : string) (xpNow : Z)
  (xpHistory : list (string * Z)) : list (string * Z) :=
  match rev xpHistory with
  | (date, _) :: earlier =>
      if (date =? today)%string then rev ((date, xpNow) :: earlier)
      else xpHistory ++ [(today, xpNow)]
  | [] => xpHistory ++ [(today, xpNow)]
  end.

(** The record kept by the platform, for the fields of [UserData] above:
    every field may be missing.  [unlockedCosmetics] is stored as a JSON
    string, modelled by the list it encodes. *)
Record StoredUser := mkStoredUser {
  st_xp : option Z;
  st_level : option Z;
  st_totalWagered : option Z;
  st_totalWon : option Z;
  st_gamesPlayed : option Z;
  st_biggestWin : option Z;
  st_biggestMultiplier : option Q;
  st_winStreak : option Z;
  st_currentStreak : option Z;
  st_lastPlayDate : option string;
  st_dailyStreak : option Z;
  st_dailyGamesPlayed : option Z;
  st_unlockedCosmetics : option (list string);
  st_activeCosmetic : option string;
  st_referralEarnings : option Z;
  st_referredUsers : option Z
}.

(** [v || d] on numbers and strings: a missing value, [0] and the empty
    string are falsy. *)
Definition orZ (v : option Z) (d : Z) : Z :=
  match v with
  | Some x => if x =? 0 then d else x
  | None => d
  end.

Definition orQ (v : option Q) (d : Q) : Q :=
  match v with
  | Some x => if Qeq_bool x 0 then d else x
  | None => d
  end.

Definition orString (v : option string) (d : string) : string :=
  match v with
  | Some x => if (x =? "")%string then d else x
  | None => d
  end.

(** The updater of [fetchUserData] for a stored record (lines 1014-1037),
    on the fields of [UserData] above. *)
Definition loadUserData (userData : StoredUser) (prev : UserData) : UserData :=
  mkUserData (id prev)
    (orZ (st_xp userData) 1000)
    (orZ (st_level userData) 1)
    (orZ (st_totalWagered userData) 0)
    (orZ (st_totalWon userData) 0)
    (orZ (st_gamesPlayed userData) 0)
    (orZ (st_biggestWin userData) 0)
    (orQ (st_biggestMultiplier userData) 0)
    (orZ (st_winStreak userData) 0)
    (orZ (st_currentStreak userData) 0)
    (match st_lastPlayDate userData with
     | Some d => if (d =? "")%string then None else Some d
     | None => None
     end)
    (orZ (st_dailyStreak userData) 0)
    (orZ (st_dailyGamesPlayed userData) 0)
    (match st_unlockedCosmetics userData with
     | Some l => l
     | None => ["default"%string]
     end)
    (orString (st_activeCosmetic userData) "default")
    (orZ (st_referralEarnings userData) 0)
    (orZ (st_referredUsers userData) 0).

(** * Properties *)

(** ** Boolean comparisons *)

Lemma Qltb_iff (x y : Q) : Qltb x y = true <-> (x < y)%Q.
Proof.
  unfold Qltb. rewrite negb_true_iff.
  split; intro H.
  - apply Qnot_le_lt. intro L. apply Qle_bool_iff in L. congruence.
  - destruct (Qle_bool y x) eqn:E; [|reflexivity].
    apply Qle_bool_iff in E. exfalso. exact (Qlt_not_le _ _ H E).
Qed.

Lemma Qltb_false_iff (x y : Q) : Qltb x y = false <-> (y <= x)%Q.
Proof.
  unfold Qltb. rewrite negb_false_iff. apply Qle_bool_iff.
Qed.

Lemma Qgeb_iff (x y : Q) : Qgeb x y = true <-> (y <= x)%Q.
Proof. apply Qle_bool_iff. Qed.

Lemma Qgeb_false_iff (x y : Q) : Qgeb x y = false <-> (x < y)%Q.
Proof.
  unfold Qgeb. split; intro H.
  - apply Qnot_le_lt. intro L. apply Qle_bool_iff in L. congruence.
  - destruct (Qle_bool y x) eqn:E; [|reflexivity].
    apply Qle_bool_iff in E. exfalso. exact (Qlt_not_le _ _ H E).
Qed.

(** ** Crash point generator *)

Lemma generateCrashPoint_low (u u' : Q) :
  (u < 0.5)%Q -> generateCrashPoint u u' = (1.01 + u' * 0.5)%Q.
Proof.
  intro H. unfold generateCrashPoint.
  apply Qltb_iff in H. now rewrite H.
Qed.

Lemma generateCrashPoint_mid (u u' : Q) :
  (0.5 <= u < 0.8)%Q -> generateCrashPoint u u' = (1.5 + u' * 1.5)%Q.
Proof.
  intros [H1 H2]. unfold generateCrashPoint.
  apply Qltb_false_iff in H1. apply Qltb_iff in H2. now rewrite H1, H2.
Qed.

Lemma generateCrashPoint_high (u u' : Q) :
  (0.8 <= u < 0.95)%Q -> generateCrashPoint u u' = (3.0 + u' * 7.0)%Q.
Proof.
  intros [H1 H2]. unfold generateCrashPoint.
  assert (H0 : (0.5 <= u)%Q) by lra.
  apply Qltb_false_iff in H0, H1. apply Qltb_iff in H2.
  now rewrite H0, H1, H2.
Qed.

Lemma generateCrashPoint_top (u u' : Q) :
  (0.95 <= u)%Q -> generateCrashPoint u u' = (10.0 + u' * 40.0)%Q.
Proof.
  intros H. unfold generateCrashPoint.
  assert (H0 : (0.5 <= u)%Q) by lra.
  assert (H1 : (0.8 <= u)%Q) by lra.
  apply Qltb_false_iff in H0, H1, H.
  now rewrite H0, H1, H.
Qed.

(** Whatever the first draw, a non-negative offset gives a crash point of at
    least 1.01. *)
Lemma generateCrashPoint_ge (u u' : Q) :
  (0 <= u')%Q -> (1.01 <= generateCrashPoint u u')%Q.
Proof.
  intro H. unfold generateCrashPoint.
  destruct (Qltb u 0.5); [lra|].
  destruct (Qltb u 0.8); [lra|].
  destruct (Qltb u 0.95); lra.
Qed.

(** C7.  For draws [u], [u'] in [[0,1)] the generator returns
    [1.01 + u'*0.50] when [u < 0.50], [1.50 + u'*1.50] when
    [0.50 <= u < 0.80], [3.00 + u'*7.00] when [0.80 <= u < 0.95] and
    [10.00 + u'*40.00] when [0.95 <= u < 1.00]; the result is always
    strictly greater than 1.00. *)
Theorem generateCrashPoint_tiers (u u' : Q) :
  (0 <= u < 1)%Q -> (0 <= u' < 1)%Q ->
  ((u < 0.50)%Q -> (generateCrashPoint u u' == 1.01 + u' * 0.50)%Q) /\
  ((0.50 <= u < 0.80)%Q -> (generateCrashPoint u u' == 1.50 + u' * 1.50)%Q) /\
  ((0.80 <= u < 0.95)%Q -> (generateCrashPoint u u' == 3.00 + u' * 7.00)%Q) /\
  ((0.95 <= u < 1.00)%Q -> (generateCrashPoint u u' == 10.00 + u' * 40.00)%Q) /\
  (1.00 < generateCrashPoint u u')%Q.
Proof.
  intros Hu Hu'. repeat split.
  - intro H. rewrite (generateCrashPoint_low u u') by lra. lra.
  - intro H. rewrite (generateCrashPoint_mid u u') by lra. lra.
  - intro H. rewrite (generateCrashPoint_high u u') by lra. lra.
  - intro H. rewrite (generateCrashPoint_top u u') by lra. lra.
  - pose proof (generateCrashPoint_ge u u' (proj1 Hu')). lra.
Qed.

Lemma generateCrashPoint_tiers_witness :
  (generateCrashPoint 0.6 0.5 == 1.50 + 0.5 * 1.50)%Q /\
  (1.00 < generateCrashPoint 0.6 0.5)%Q.
Proof.
  assert (Hu : (0 <= 0.6 < 1)%Q) by (split; vm_compute; intuition discriminate).
  assert (Hu' : (0 <= 0.5 < 1)%Q) by (split; vm_compute; intuition discriminate).
  destruct (generateCrashPoint_tiers 0.6 0.5 Hu Hu') as (_ & Hmid & _ & _ & Hgt).
  split; [apply Hmid; split; vm_compute; intuition discriminate | exact Hgt].
Defined.

(** ** Placing a wager *)

(** The three rejections of [placeWager] leave the world as it is. *)
Lemma placeWager_rejects_running (random offset : Q) (r : State) (w : World) :
  isRunning (game r) = true -> placeWager random offset r w = w.
Proof. intro H. unfold placeWager. now rewrite H. Qed.



(** What an accepted wager does, for any render [r] and current world. *)
Lemma placeWager_accepted (random offset : Q) (r : State) (w : World) :
  isRunning (game r) = false ->
  0 < userWagerXP (game r) <= xp (user r) ->
  placeWager random offset r w =
  startRound random offset r
    (mkWorld
       (setGame (fun prev =>
          prev |> set_userWagerXP (userWagerXP (game r))
               |> set_isWaiting false
               |> set_isRunning true
               |> set_userCashedOut false
               |> set_isCrashed false
               |> set_isExploding false
               |> set_userCashOutMultiplier None
               |> set_userWinningsXP 0)
          (setUser (fun prev => set_xp (xp prev - userWagerXP (game r)) prev)
                   (store w)))
       (multiplierIntervalRef w)).
Proof.
  intros Hrun [Hpos Hle]. unfold placeWager. rewrite Hrun.
  destruct (userWagerXP (game r) <=? 0) eqn:E1; [apply Z.leb_le in E1; lia|].
  destruct (userWagerXP (game r) >? xp (user r)) eqn:E2;
    [apply Z.gtb_gt in E2; lia|].
  reflexivity.
Qed.

(** C1.  A click on PLACE WAGER with a wager [wager], [10 <= wager <= xp],
    while no round is running: the wager is taken from the player's XP and
    the round is running. *)
Theorem placeWager_deducts_and_runs (random offset : Q) (w : World) (wager : Z) :
  isRunning (game (store w)) = false ->
  userWagerXP (game (store w)) = wager ->
  10 <= wager <= xp (user (store w)) ->
  let w' := clickPlaceWager random offset w in
  xp (user (store w')) = xp (user (store w)) - wager /\
  isRunning (game (store w')) = true /\
  status (game (store w')) = Running.
Proof.
  intros Hrun Hw Hrange w'. subst w'. unfold clickPlaceWager.
  rewrite placeWager_accepted by (rewrite ?Hw; auto; lia).
  rewrite Hw. cbn. repeat split.
Qed.

Lemma placeWager_deducts_and_runs_witness :
  let w' := clickPlaceWager 0.6 0.5 initialWorld in
  xp (user (store w')) = 1000 - 50 /\
  isRunning (game (store w')) = true /\
  status (game (store w')) = Running.
Proof.
  apply (placeWager_deducts_and_runs 0.6 0.5 initialWorld 50);
    [reflexivity | reflexivity | cbn; lia].
Defined.

(** C3.  A wager of 5 XP, below the minimum of 10 that [placeWager]
    announces in its own error message, is not rejected: the guard is
    [wager <= 0].  The 5 XP are taken and the round starts. *)
Theorem placeWager_accepts_wager_below_minimum :
  userWagerXP (game (store LowWager.typed)) = 5 /\
  xp (user (store LowWager.typed)) = 1000 /\
  isRunning (game (store LowWager.typed)) = false /\
  xp (user (store LowWager.wagered)) = 995 /\
  status (game (store LowWager.wagered)) = Running /\
  LowWager.wagered <> LowWager.typed.
Proof.
  repeat split; try reflexivity.
  intro H. apply (f_equal (fun w => xp (user (store w)))) in H.
  vm_compute in H. discriminate H.
Qed.

(** ** The climb *)

Lemma newMultiplierAt_mono (t1 t2 : Z) :
  0 <= t1 <= t2 -> (newMultiplierAt t1 <= newMultiplierAt t2)%Q.
Proof.
  intros [H0 H12]. unfold newMultiplierAt.
  assert (A : (0 <= inject_Z t1 / 1000)%Q).
  { apply Qle_shift_div_l; [reflexivity|].
    rewrite Qmult_0_l. change 0%Q with (inject_Z 0).
    rewrite <- Zle_Qle. exact H0. }
  assert (B : (inject_Z t1 / 1000 <= inject_Z t2 / 1000)%Q).
  { apply Qmult_le_compat_r; [rewrite <- Zle_Qle; exact H12 | discriminate]. }
  set (a := (inject_Z t1 / 1000)%Q) in *.
  set (b := (inject_Z t2 / 1000)%Q) in *.
  assert (C : (a ^ 2 <= b ^ 2)%Q).
  { change (a * a <= b * b)%Q. nra. }
  lra.
Qed.

Lemma newMultiplierAt_ge_1 (t : Z) : (1 <= newMultiplierAt t)%Q.
Proof.
  unfold newMultiplierAt.
  set (a := (inject_Z t / 1000)%Q).
  assert (C : (0 <= a ^ 2)%Q) by (change (0 <= a * a)%Q; nra).
  lra.
Qed.

(** An accepted click installs a climb whose callback closes over the render
    of the click: the crash point it will test is the one that render holds,
    the crash point of the round before (or [null]), not the one
    [startRound] draws for the new round. *)
Lemma clickPlaceWager_installs_climb (random offset : Q) (w : World) :
  isRunning (game (store w)) = false ->
  0 < userWagerXP (game (store w)) <= xp (user (store w)) ->
  let w' := clickPlaceWager random offset w in
  multiplierIntervalRef w' = Some (mkClimb 1.00%Q (store w)) /\
  crashPoint (game (store w')) = Some (generateCrashPoint random offset) /\
  currentMultiplier (game (store w')) = 1.00%Q.
Proof.
  intros Hrun Hw w'. subst w'. unfold clickPlaceWager.
  rewrite placeWager_accepted by assumption.
  cbn. repeat split.
Qed.

(** While the render of the climb holds no crash point, no tick ends the
    round. *)
Lemma climbTick_without_crashPoint (elapsed : Z) (w : World) (c : Climb) :
  multiplierIntervalRef w = Some c ->
  crashPoint (game (closure c)) = None ->
  snd (climbTick elapsed w) = None /\
  isRunning (game (store (fst (climbTick elapsed w)))) = isRunning (game (store w)) /\
  multiplierIntervalRef (fst (climbTick elapsed w)) <> None.
Proof.
  intros Hc Hcp. unfold climbTick. rewrite Hc, Hcp. cbn.
  unfold climbUpdate.
  destruct (Qgtb _ _); cbn; repeat split; congruence.
Qed.

(** A tick clamps at the crash point its render holds, and stops the
    interval. *)
Lemma climbTick_clamps (elapsed : Z) (w : World) (c : Climb) (cp : Q) :
  multiplierIntervalRef w = Some c ->
  crashPoint (game (closure c)) = Some cp ->
  ~ (cp == 0)%Q ->
  (cp <= newMultiplierAt elapsed)%Q ->
  climbTick elapsed w =
  (mkWorld (setGame (set_currentMultiplier cp) (store w)) None,
   Some (closure c)).
Proof.
  intros Hc Hcp Hnz Hge. unfold climbTick. rewrite Hc, Hcp.
  destruct (Qeq_bool cp 0) eqn:E; [apply Qeq_bool_iff in E; contradiction|].
  apply Qgeb_iff in Hge. rewrite Hge. reflexivity.
Qed.

(** Below the crash point of its render, a tick leaves the multiplier where
    it is or moves it to the value of the formula. *)
Lemma climbTick_below (elapsed : Z) (w : World) (c : Climb) (cp : Q) :
  multiplierIntervalRef w = Some c ->
  crashPoint (game (closure c)) = Some cp ->
  (newMultiplierAt elapsed < cp)%Q ->
  snd (climbTick elapsed w) = None /\
  (currentMultiplier (game (store (fst (climbTick elapsed w)))) =
     currentMultiplier (game (store w)) \/
   currentMultiplier (game (store (fst (climbTick elapsed w)))) =
     newMultiplierAt elapsed).
Proof.
  intros Hc Hcp Hlt. unfold climbTick. rewrite Hc, Hcp.
  apply Qgeb_false_iff in Hlt. rewrite Hlt, andb_false_r. cbn.
  unfold climbUpdate. destruct (Qgtb _ _); cbn; auto.
Qed.

(** While the render of the climb holds no crash point, no run of the
    interval ends the round, however long. *)
Lemma climbTick_keeps_closure (elapsed : Z) (w : World) (c : Climb) :
  multiplierIntervalRef w = Some c ->
  crashPoint (game (closure c)) = None ->
  exists c', climbTick elapsed w = (fst (climbTick elapsed w), None) /\
             multiplierIntervalRef (fst (climbTick elapsed w)) = Some c' /\
             closure c' = closure c.
Proof.
  intros Hc Hcp. unfold climbTick. rewrite Hc, Hcp. cbn [fst].
  unfold climbUpdate. destruct (Qgtb _ _).
  - eexists. repeat split.
  - exists c. repeat split. exact Hc.
Qed.

Lemma runTicks_without_crashPoint (times : list Z) (w : World) (c : Climb) :
  multiplierIntervalRef w = Some c ->
  crashPoint (game (closure c)) = None ->
  snd (runTicks times w) = None.
Proof.
  revert w c. induction times as [|t ts IH]; intros w c Hc Hcp.
  - reflexivity.
  - destruct (climbTick_keeps_closure t w c Hc Hcp) as (c' & Ht & Hc' & Hcl).
    unfold runTicks. cbn [fold_left snd fst]. rewrite Ht.
    apply (IH _ c' Hc'). now rewrite Hcl.
Qed.

Lemma first_round_never_crashes (times : list Z) :
  snd (runTicks times Round1.wagered) = None.
Proof.
  apply (runTicks_without_crashPoint times Round1.wagered
           (mkClimb 1.00%Q initialState)); reflexivity.
Qed.

(** In the first round, a tick that is the first to fire, [elapsed] ms into
    the round, shows the value of the formula; from 400 ms on it is above
    the crash point 1.015 of the round. *)
Lemma first_round_climb (elapsed : Z) :
  400 <= elapsed ->
  currentMultiplier (game (store (fst (climbTick elapsed Round1.wagered)))) =
    newMultiplierAt elapsed /\
  (generateCrashPoint 0.2 0.01 < newMultiplierAt elapsed)%Q.
Proof.
  intro H.
  assert (M : (newMultiplierAt 400 <= newMultiplierAt elapsed)%Q)
    by (apply newMultiplierAt_mono; lia).
  assert (V : (newMultiplierAt 400 == 1.016)%Q) by reflexivity.
  assert (P : (generateCrashPoint 0.2 0.01 == 1.015)%Q) by reflexivity.
  split; [|lra].
  change (climbTick elapsed Round1.wagered)
    with (climbUpdate (mkClimb 1.00%Q initialState) (newMultiplierAt elapsed)
            Round1.wagered, @None State).
  unfold climbUpdate. cbn [fst lastMultiplier].
  assert (G : Qgtb (Qabs (newMultiplierAt elapsed - 1.00)) 0.01 = true).
  { apply Qltb_iff. rewrite Qabs_pos by lra. lra. }
  rewrite G. reflexivity.
Qed.

(** A tick never moves the multiplier above the crash point its render
    holds. *)
Lemma climbTick_bounded (elapsed : Z) (w : World) (c : Climb) (cp : Q) :
  multiplierIntervalRef w = Some c ->
  crashPoint (game (closure c)) = Some cp ->
  ~ (cp == 0)%Q ->
  (currentMultiplier (game (store w)) <= cp)%Q ->
  (currentMultiplier (game (store (fst (climbTick elapsed w)))) <= cp)%Q.
Proof.
  intros Hc Hcp Hnz Hle.
  destruct (Qlt_le_dec (newMultiplierAt elapsed) cp) as [L|G].
  - destruct (climbTick_below elapsed w c cp Hc Hcp L) as [_ [E|E]];
      rewrite E; [exact Hle | lra].
  - rewrite (climbTick_clamps elapsed w c cp Hc Hcp Hnz G). cbn. lra.
Qed.

(** While the clock moves forward, a tick never lowers the multiplier. *)
Lemma climbTick_nondecreasing (elapsed : Z) (w : World) (c : Climb) :
  multiplierIntervalRef w = Some c ->
  lastMultiplier c = currentMultiplier (game (store w)) ->
  (currentMultiplier (game (store w)) <= newMultiplierAt elapsed)%Q ->
  (forall cp, crashPoint (game (closure c)) = Some cp ->
              (currentMultiplier (game (store w)) <= cp)%Q) ->
  (currentMultiplier (game (store w)) <=
   currentMultiplier (game (store (fst (climbTick elapsed w)))))%Q.
Proof.
  intros Hc Hlast Hnew Hcp. unfold climbTick. rewrite Hc.
  assert (U : (currentMultiplier (game (store w)) <=
               currentMultiplier
                 (game (store (climbUpdate c (newMultiplierAt elapsed) w))))%Q).
  { unfold climbUpdate. destruct (Qgtb _ _); cbn; [exact Hnew | lra]. }
  destruct (crashPoint (game (closure c))) as [cp|]; [|exact U].
  destruct (negb (Qeq_bool cp 0) && Qgeb (newMultiplierAt elapsed) cp);
    [|exact U].
  cbn. now apply Hcp.
Qed.

(** C4.  In the first round of a session the climb is not bounded by the
    round's crash point.  The round draws the crash point 1.015; the callback
    of the climb reads [game.crashPoint] from the render of the click, where
    it is still [null].  After 50 ticks, half a second into the round, the
    multiplier shown is [1 + 0.1 * 0.45^2 = 1.02025] and no crash has been
    scheduled: the round is still running above its crash point, and no run
    of ticks, however long, schedules the crash. *)
Theorem climb_passes_crashPoint :
  crashPoint (game (store Round1.wagered)) = Some (generateCrashPoint 0.2 0.01) /\
  (generateCrashPoint 0.2 0.01 == 1.015)%Q /\
  multiplierIntervalRef Round1.wagered =
    Some (mkClimb 1.00%Q initialState) /\
  crashPoint (game initialState) = None /\
  runTicks (tickTimes 50) Round1.wagered = (Round1.climbed, None) /\
  (currentMultiplier (game (store Round1.climbed)) == 1.02025)%Q /\
  (generateCrashPoint 0.2 0.01 < currentMultiplier (game (store Round1.climbed)))%Q /\
  status (game (store Round1.climbed)) = Running /\
  (forall times : list Z, snd (runTicks times Round1.wagered) = None).
Proof.
  repeat apply conj.
  9: { intro times.
       apply (runTicks_without_crashPoint times Round1.wagered
                (mkClimb 1.00%Q initialState)); reflexivity. }
  all: vm_compute; reflexivity.
Qed.

(** In a later round the tick clamps at the crash point of the round before:
    the second round of [Revive] draws 6.5 and is ended at 1.26, by the tick
    at 1620 ms. *)
Lemma second_round_ends_at_previous_crashPoint :
  (exists cp1, crashPoint (game (store Revive.reset1)) = Some cp1 /\
               (cp1 == 1.26)%Q) /\
  (exists cp2, crashPoint (game (store Revive.wagered2)) = Some cp2 /\
               (cp2 == 6.5)%Q) /\
  snd (runTicks (tickTimes 161) Revive.wagered2) = None /\
  snd (runTicks (tickTimes 162) Revive.wagered2) = Some (store Revive.reset1) /\
  (currentMultiplier (game (store (fst Revive.crashTick))) == 1.26)%Q /\
  snd Revive.crashTick = Some (store Revive.reset1).
Proof.
  repeat apply conj.
  - eexists. split; vm_compute; reflexivity.
  - eexists. split; vm_compute; reflexivity.
  - vm_compute. reflexivity.
  - vm_compute. reflexivity.
  - vm_compute. reflexivity.
  - vm_compute. reflexivity.
Qed.

(** ** Cashing out *)

Lemma cashOut_noop (r : State) (w : World) :
  isRunning (game r) = false \/ userCashedOut (game r) = true ->
  cashOut r w = w.
Proof.
  intros [H|H]; unfold cashOut; rewrite H; [reflexivity|].
  now rewrite orb_true_r.
Qed.

(** What every accepted cash-out writes, for any render [r] in which the
    round is running and not cashed out: the two updaters queued before the
    win is shared. *)
Lemma cashOut_credits (r : State) (w : World) :
  isRunning (game r) = true ->
  userCashedOut (game r) = false ->
  let winnings := winningsOf (userWagerXP (game r)) (currentMultiplier (game r))
                             (xpBoostMultiplier (creator r)) in
  let w' := cashOut r w in
  userWinningsXP (game (store w')) = winnings /\
  userCashOutMultiplier (game (store w')) = Some (currentMultiplier (game r)) /\
  userCashedOut (game (store w')) = true /\
  xp (user (store w')) = xp (user (store w)) + winnings /\
  totalWon (user (store w')) = totalWon (user (store w)) + winnings /\
  totalWagered (user (store w')) =
    totalWagered (user (store w)) + userWagerXP (game r) /\
  gamesPlayed (user (store w')) = gamesPlayed (user (store w)) + 1 /\
  dailyGamesPlayed (user (store w')) = dailyGamesPlayed (user (store w)) + 1 /\
  lastRounds (game (store w')) = lastRounds (game (store w)).
Proof.
  intros Hrun Hco winnings w'. subst w'. unfold cashOut.
  rewrite Hrun, Hco. cbn [negb orb]. fold winnings. clearbody winnings.
  unfold updateWinStreak, createShareableAchievement.
  destruct (isGuest r); destruct (winnings >? 1000); cbn; repeat split.
Qed.

(** A cash-out that does not share the win (a guest render, or winnings of
    at most 1000 XP) runs to its end: the round is settled as cashed out and
    the climb is stopped. *)
Lemma cashOut_settles (r : State) (w : World) :
  isRunning (game r) = true ->
  userCashedOut (game r) = false ->
  isGuest r = true \/
  winningsOf (userWagerXP (game r)) (currentMultiplier (game r))
             (xpBoostMultiplier (creator r)) <= 1000 ->
  let w' := cashOut r w in
  status (game (store w')) = CashedOut /\
  isCrashed (game (store w')) = false /\
  multiplierIntervalRef w' = None.
Proof.
  intros Hrun Hco Hend w'. subst w'. unfold cashOut.
  rewrite Hrun, Hco. cbn [negb orb].
  set (winnings := winningsOf _ _ _) in *. clearbody winnings.
  unfold updateWinStreak, createShareableAchievement.
  destruct (winnings >? 1000) eqn:W.
  - destruct Hend as [G|L]; [|apply Z.gtb_gt in W; lia].
    rewrite G. cbn. repeat split.
  - destruct (isGuest r); cbn; repeat split.
Qed.

(** A cash-out of more than 1000 XP from the render of a signed-in player
    ends at the exception: the round is not stopped. *)
Lemma cashOut_aborts (r : State) (w : World) :
  isRunning (game r) = true ->
  userCashedOut (game r) = false ->
  isGuest r = false ->
  winningsOf (userWagerXP (game r)) (currentMultiplier (game r))
             (xpBoostMultiplier (creator r)) > 1000 ->
  let w' := cashOut r w in
  isRunning (game (store w')) = isRunning (game (store w)) /\
  isCrashed (game (store w')) = isCrashed (game (store w)) /\
  multiplierIntervalRef w' = multiplierIntervalRef w /\
  currentStreak (user (store w')) = currentStreak (user (store w)) /\
  winStreak (user (store w')) = winStreak (user (store w)).
Proof.
  intros Hrun Hco G Hbig w'. subst w'. unfold cashOut.
  rewrite Hrun, Hco. cbn [negb orb].
  set (winnings := winningsOf _ _ _) in *. clearbody winnings.
  apply Z.gtb_gt in Hbig. rewrite Hbig.
  unfold createShareableAchievement. rewrite G. cbn. repeat split.
Qed.

(** C2.  A cash-out above the round's crash point.  In the first round of a
    session the climb passes the crash point 1.015 (see [first_round_climb]);
    a cash-out clicked half a second into the round, while it is running and
    not cashed out, captures the multiplier 1.02025 and pays
    [floor (50 * 1.02025 * 1.0) = 51] XP. *)
Theorem cashOut_above_crashPoint :
  status (game (store Round1.climbed)) = Running /\
  userCashedOut (game (store Round1.climbed)) = false /\
  (exists cp m,
     crashPoint (game (store Round1.cashed)) = Some cp /\
     userCashOutMultiplier (game (store Round1.cashed)) = Some m /\
     (cp == 1.015)%Q /\ (m == 1.02025)%Q /\ (cp < m)%Q) /\
  userWinningsXP (game (store Round1.cashed)) = 51 /\
  xp (user (store Round1.cashed)) = xp (user (store Round1.climbed)) + 51 /\
  status (game (store Round1.cashed)) = CashedOut.
Proof.
  repeat apply conj; try (vm_compute; reflexivity).
  do 2 eexists. repeat apply conj; vm_compute; reflexivity.
Qed.

(** ** XP never below zero: the three guarded operations *)

(** A click on PLACE WAGER keeps the balance non-negative. *)
Lemma clickPlaceWager_xp_nonneg (random offset : Q) (w : World) :
  0 <= xp (user (store w)) ->
  0 <= xp (user (store (clickPlaceWager random offset w))).
Proof.
  intro H. unfold clickPlaceWager, placeWager.
  destruct (isRunning _); [exact H|].
  destruct (_ <=? 0); [exact H|].
  destruct (_ >? _) eqn:E; [exact H|].
  rewrite Z.gtb_ltb in E. apply Z.ltb_ge in E. cbn. lia.
Qed.

(** A purchase made from the render of the current state keeps the balance
    non-negative. *)
Lemma buyCosmetic_xp_nonneg (cid : string) (price : Z) (s : State) :
  0 <= xp (user s) -> 0 <= xp (user (buyCosmetic cid price s s)).
Proof.
  intro H. unfold buyCosmetic.
  destruct (isGuest s); [exact H|].
  destruct (includes _ _); [exact H|].
  destruct (_ <? _) eqn:E; [exact H|].
  apply Z.ltb_ge in E. cbn. lia.
Qed.

(** The second chance, when the render it tests is the current state. *)
Lemma offerSecondChance_xp_nonneg (choice : SecondChanceChoice) (s : State) :
  0 <= xp (user s) -> 0 <= xp (user (offerSecondChance choice s s)).
Proof.
  intro H. unfold offerSecondChance.
  destruct (isGuest s); [exact H|].
  destruct choice; [|exact H].
  destruct (_ >=? 200) eqn:E; [|exact H].
  rewrite Z.geb_leb in E. apply Z.leb_le in E. cbn. lia.
Qed.

(** The second chance in general: the test reads the balance of the render
    [r], the 200 XP leave the current balance. *)
Lemma offerSecondChance_pays (r s : State) :
  isGuest r = false -> 200 <= xp (user r) ->
  xp (user (offerSecondChance Pay200 r s)) = xp (user s) - 200.
Proof.
  intros G H. unfold offerSecondChance. rewrite G.
  apply Z.leb_le in H. rewrite Z.geb_leb, H. reflexivity.
Qed.

(** C5.  The second chance can take the balance below zero.  The player of
    [Revive] holds 1009 XP when the second round is wagered (900 XP, leaving
    109).  The round crashes and the modal is offered by the [crashGame] of
    the climb, whose render is the one of the click: there [user.xp] is still
    1009, the test [user.xp >= 200] passes, and 200 XP are taken from the
    109. *)
Theorem second_chance_overdraws :
  status (game (store Revive.reset1)) = Waiting /\
  xp (user (store Revive.reset1)) = 1009 /\
  multiplierIntervalRef Revive.wagered2 =
    Some (mkClimb 1.00%Q (store Revive.reset1)) /\
  xp (user (store Revive.wagered2)) = 109 /\
  snd Revive.crashTick = Some (store Revive.reset1) /\
  snd Revive.crashed = SecondChanceOffer /\
  xp (user (store (fst Revive.crashed))) = 109 /\
  xp (user Revive.revived) = -91 /\
  xp (user Revive.revived) < 0.
Proof.
  repeat apply conj; vm_compute; reflexivity.
Qed.

(** ** Round history *)

Lemma crashGame_lastRounds (chance : Q) (r : State) (w : World) :
  lastRounds (game (store (fst (crashGame chance r w)))) =
  firstn 10 (currentMultiplier (game (store w)) :: lastRounds (game (store w))).
Proof.
  unfold crashGame, updateWinStreak.
  destruct (userCashedOut (game r)); cbn; [reflexivity|].
  destruct (isAuthReady r && negb (id (user r) =? "guest_user")%string);
    destruct (isGuest r); reflexivity.
Qed.

Lemma crashGame_flags (chance : Q) (r : State) (w : World) :
  isRunning (game (store (fst (crashGame chance r w)))) = false /\
  isCrashed (game (store (fst (crashGame chance r w)))) = true /\
  multiplierIntervalRef (fst (crashGame chance r w)) = None.
Proof.
  unfold crashGame, updateWinStreak.
  destruct (userCashedOut (game r)); cbn; [repeat split|].
  destruct (isAuthReady r && negb (id (user r) =? "guest_user")%string);
    destruct (isGuest r); repeat split.
Qed.

(** Once the interval is cleared no tick runs: nothing is written and no
    crash is scheduled. *)
Lemma runTicks_cleared (times : list Z) (w : World) :
  multiplierIntervalRef w = None -> runTicks times w = (w, None).
Proof.
  intro H. unfold runTicks.
  induction times as [|t ts IH]; [reflexivity|].
  assert (C : climbTick t w = (w, None))
    by (unfold climbTick; now rewrite H).
  cbn [fold_left]. cbn [snd fst]. rewrite C. exact IH.
Qed.

(** A cash-out never writes the history, whatever the render. *)
Lemma cashOut_lastRounds (r : State) (w : World) :
  lastRounds (game (store (cashOut r w))) = lastRounds (game (store w)).
Proof.
  unfold cashOut.
  destruct (negb (isRunning (game r)) || userCashedOut (game r));
    [reflexivity|].
  unfold updateWinStreak, createShareableAchievement.
  destruct (_ >? 1000); destruct (isGuest r); reflexivity.
Qed.

(** C6.  A round settled by cash-out is never recorded.  The guest of
    [EarlyCashOut] cashes out at 1.01024, below the crash point 1.26 of the
    round.  The round is settled as cashed out and the climb is stopped, so
    no tick will schedule [crashGame], the only function that writes
    [lastRounds]: the history is empty before the cash-out, after it, and
    after the reset that opens the next round.  Had the same round ended by
    a crash, [crashGame] would have put its multiplier at the head of the
    history. *)
Theorem cashOut_not_recorded :
  (exists cp m,
     crashPoint (game (store EarlyCashOut.climbed)) = Some cp /\
     currentMultiplier (game (store EarlyCashOut.climbed)) = m /\
     userCashOutMultiplier (game (store EarlyCashOut.cashed)) = Some m /\
     (cp == 1.26)%Q /\ (m == 1.01024)%Q /\ (m < cp)%Q) /\
  status (game (store EarlyCashOut.climbed)) = Running /\
  lastRounds (game (store EarlyCashOut.climbed)) = [] /\
  status (game (store EarlyCashOut.cashed)) = CashedOut /\
  lastRounds (game (store EarlyCashOut.cashed)) = [] /\
  multiplierIntervalRef EarlyCashOut.cashed = None /\
  (forall times : list Z,
     runTicks times EarlyCashOut.cashed = (EarlyCashOut.cashed, None)) /\
  status (game (store EarlyCashOut.reset)) = Waiting /\
  lastRounds (game (store EarlyCashOut.reset)) = [] /\
  lastRounds (game (store (fst (crashGame 0.5 initialState
                                  EarlyCashOut.climbed)))) =
    [currentMultiplier (game (store EarlyCashOut.climbed))].
Proof.
  repeat apply conj.
  1: { do 2 eexists. repeat apply conj; vm_compute; reflexivity. }
  6: { intro times. apply runTicks_cleared. vm_compute. reflexivity. }
  all: vm_compute; reflexivity.
Qed.

(** ** Mystery Box sampler *)

Lemma weightSum_cons (x : Reward) (l : list Reward) :
  weightSum (x :: l) = (weight x + weightSum l)%Q.
Proof. reflexivity. Qed.

Lemma totalWeight_acc (l : list Reward) (a : Q) :
  (fold_left (fun sum r => sum + weight r) l a == a + weightSum l)%Q.
Proof.
  revert a. induction l as [|x l IH]; intro a.
  - change (a == a + 0)%Q. lra.
  - rewrite weightSum_cons. cbn [fold_left]. rewrite IH. lra.
Qed.

Lemma totalWeight_weightSum (l : list Reward) :
  (totalWeight l == weightSum l)%Q.
Proof. unfold totalWeight. rewrite totalWeight_acc. lra. Qed.

Lemma weightSum_app (l1 l2 : list Reward) :
  (weightSum (l1 ++ l2) == weightSum l1 + weightSum l2)%Q.
Proof.
  induction l1 as [|x l1 IH].
  - change (weightSum l2 == 0 + weightSum l2)%Q. lra.
  - cbn [app]. rewrite !weightSum_cons, IH. lra.
Qed.

Lemma weightSum_nonneg (l : list Reward) :
  Forall (fun e => (0 < weight e)%Q) l -> (0 <= weightSum l)%Q.
Proof.
  induction 1 as [|x l Hx _ IH].
  - change (0 <= 0)%Q. lra.
  - rewrite weightSum_cons. lra.
Qed.

Lemma walkRewards_In (l : list Reward) (r : Q) (e : Reward) :
  walkRewards l r = Some e -> In e l.
Proof.
  revert r. induction l as [|x l IH]; intros r H; cbn in H.
  - discriminate H.
  - destruct (Qltb r (weight x)).
    + injection H as ->. now left.
    + right. exact (IH _ H).
Qed.

(** The loop stops at the entry whose span of cumulative weight holds the
    draw. *)
Lemma walkRewards_span (l : list Reward) (r : Q) :
  (0 <= r < weightSum l)%Q ->
  exists pre e post,
    l = pre ++ e :: post /\
    walkRewards l r = Some e /\
    (weightSum pre <= r < weightSum pre + weight e)%Q.
Proof.
  revert r. induction l as [|x l IH]; intros r [H0 H1].
  - change (r < 0)%Q in H1. lra.
  - rewrite weightSum_cons in H1. cbn [walkRewards].
    destruct (Qltb r (weight x)) eqn:E.
    + apply Qltb_iff in E.
      exists [], x, l. change (weightSum []) with 0%Q.
      repeat split; try reflexivity; lra.
    + apply Qltb_false_iff in E.
      destruct (IH (r - weight x)%Q) as (pre & e & post & Hl & Hw & Hs).
      { split; lra. }
      exists (x :: pre), e, post. subst l. rewrite weightSum_cons.
      repeat split; try assumption; try reflexivity; lra.
Qed.

Lemma sampleReward_nonempty (l : list Reward) (r : Q) :
  l <> [] -> exists e, sampleReward l r = Some e /\ In e l.
Proof.
  intro Hne. unfold sampleReward.
  destruct (walkRewards l r) as [e|] eqn:E.
  - exists e. split; [reflexivity | exact (walkRewards_In _ _ _ E)].
  - destruct l as [|x l]; [congruence|].
    exists x. split; [reflexivity | now left].
Qed.

(** C8.  With positive weights and a draw [r = u * totalWeight] in
    [[0, totalWeight)], the sampler returns the entry [e] whose span
    [[weightSum pre, weightSum pre + weight e)] holds [r], [pre] being the
    entries before it, and [r] lies beyond the span of every earlier entry;
    when the loop matches no entry the first entry is returned; on a
    non-empty list the result is an element of the list. *)
Theorem getWeightedRandomReward_span (l : list Reward) (u : Q) :
  Forall (fun e => (0 < weight e)%Q) l ->
  let r := (u * totalWeight l)%Q in
  ((0 <= r < totalWeight l)%Q ->
   exists pre e post,
     l = pre ++ e :: post /\
     getWeightedRandomReward l u = Some e /\
     (weightSum pre <= r < weightSum pre + weight e)%Q /\
     (forall p1 e1 p2, pre = p1 ++ e1 :: p2 ->
        (weightSum p1 + weight e1 <= r)%Q)) /\
  (walkRewards l r = None -> getWeightedRandomReward l u = hd_error l) /\
  (l <> [] -> exists e, getWeightedRandomReward l u = Some e /\ In e l).
Proof.
  intros Hpos r. repeat apply conj.
  - intros [H0 H1].
    destruct (walkRewards_span l r) as (pre & e & post & Hl & Hw & Hs).
    { rewrite <- totalWeight_weightSum. split; assumption. }
    exists pre, e, post. repeat apply conj; try tauto.
    + unfold getWeightedRandomReward, sampleReward. fold r. now rewrite Hw.
    + intros p1 e1 p2 Hpre.
      assert (Hp2 : (0 <= weightSum p2)%Q).
      { apply weightSum_nonneg. subst l pre.
        apply Forall_app in Hpos. destruct Hpos as [Hpre' _].
        apply Forall_app in Hpre'. destruct Hpre' as [_ Hp].
        now inversion Hp. }
      assert (Hsum : (weightSum pre == weightSum p1 + (weight e1 + weightSum p2))%Q).
      { subst pre. now rewrite weightSum_app. }
      lra.
  - intro Hw. unfold getWeightedRandomReward, sampleReward. fold r.
    now rewrite Hw.
  - intro Hne. apply sampleReward_nonempty. exact Hne.
Qed.

Lemma getWeightedRandomReward_span_witness :
  exists e, getWeightedRandomReward rewards 0.6 = Some e /\ In e rewards.
Proof.
  assert (Hpos : Forall (fun e => (0 < weight e)%Q) rewards)
    by (repeat constructor).
  apply (proj2 (proj2 (getWeightedRandomReward_span rewards 0.6 Hpos))).
  discriminate.
Defined.

(** The Mystery Box table at the draw 0.6: [r = 6] of a total weight of 10
    falls in the span [[5, 7)] of the second entry. *)
Example getWeightedRandomReward_at_06 :
  getWeightedRandomReward rewards 0.6 = nth_error rewards 1.
Proof. reflexivity. Qed.

(** ** Daily streak *)

(** The update for a signed-in player who last played on another day than
    today: the new streak, and the bonus.  The bonus is decided on the
    streak of the render plus one, and its amount is computed from the
    streak already updated. *)
Lemma updateDailyStreak_other_day
  (today yesterdayStr lastPlay : string) (r s : State) :
  isGuest r = false ->
  lastPlayDate (user r) = Some lastPlay ->
  lastPlay <> ""%string -> lastPlay <> today ->
  let s' := updateDailyStreak today yesterdayStr r s in
  let streak' := if (lastPlay =? yesterdayStr)%string
                 then dailyStreak (user s) + 1 else 1 in
  dailyStreak (user s') = streak' /\
  lastPlayDate (user s') = Some today /\
  xp (user s') - xp (user s) =
    if (dailyStreak (user r) + 1 >=? 3)
       && (Z.rem (dailyStreak (user r) + 1) 3 =? 0)
    then 100 * (streak' + 1) else 0.
Proof.
  intros G Hlp Hne Hnt s' streak'. subst s' streak'.
  unfold updateDailyStreak. rewrite G, Hlp.
  apply String.eqb_neq in Hne, Hnt. rewrite Hne, Hnt.
  destruct (lastPlay =? yesterdayStr)%string;
    destruct ((dailyStreak (user r) + 1 >=? 3)
              && (Z.rem (dailyStreak (user r) + 1) 3 =? 0));
    cbn; repeat split; lia.
Qed.

Lemma updateDailyStreak_same_day (today yesterdayStr : string) (r s : State) :
  lastPlayDate (user r) = Some today -> today <> ""%string ->
  updateDailyStreak today yesterdayStr r s = s.
Proof.
  intros Hlp Hne. unfold updateDailyStreak. rewrite Hlp.
  apply String.eqb_neq in Hne. rewrite Hne, String.eqb_refl.
  now destruct (isGuest r).
Qed.

(** C9.  The daily-streak bonus on two sessions of [Streak].  A player with
    a streak of 2 who skipped nine days has the streak reset to 1 and still
    receives a bonus, of 200 XP.  The same player coming back the next day
    reaches the streak 3 and receives 400 XP, not [100 * 3]. *)
Theorem dailyStreak_bonus_mismatch :
  dailyStreak (user Streak.lapsed) = 1 /\
  dailyStreakBonus "2024-03-10" "2024-03-09"
    (Streak.player "2024-03-01") (Streak.player "2024-03-01") = 200 /\
  dailyStreak (user Streak.kept) = 3 /\
  dailyStreakBonus "2024-03-10" "2024-03-09"
    (Streak.player "2024-03-09") (Streak.player "2024-03-09") = 400.
Proof.
  repeat apply conj; vm_compute; reflexivity.
Qed.

(** ** Settlement statistics *)

Lemma isGuest_not_signed_in (r : State) :
  isGuest r = true ->
  isAuthReady r && negb (id (user r) =? "guest_user")%string = false.
Proof.
  unfold isGuest. destruct (isAuthReady r); cbn; [|reflexivity].
  intro H. now rewrite H.
Qed.

(** A crash seen from a guest render leaves the player's record as it is. *)
Lemma crashGame_guest_user (chance : Q) (r : State) (w : World) :
  isGuest r = true ->
  user (store (fst (crashGame chance r w))) = user (store w).
Proof.
  intro G. unfold crashGame, updateWinStreak.
  rewrite (isGuest_not_signed_in r G), G.
  destruct (userCashedOut (game r)); reflexivity.
Qed.

(** A crash seen from the render of a signed-in player who has not cashed
    out counts the round and ends the streak. *)
Lemma crashGame_signed_in_user (chance : Q) (r : State) (w : World) :
  isGuest r = false -> userCashedOut (game r) = false ->
  let u' := user (store (fst (crashGame chance r w))) in
  totalWagered u' = totalWagered (user (store w)) + userWagerXP (game r) /\
  gamesPlayed u' = gamesPlayed (user (store w)) + 1 /\
  currentStreak u' = 0 /\
  xp u' = xp (user (store w)).
Proof.
  intros G Hco. unfold crashGame, updateWinStreak. rewrite Hco, G.
  unfold isGuest in G. apply orb_false_iff in G. destruct G as [G1 G2].
  apply negb_false_iff in G1. rewrite G1, G2. cbn. repeat split.
Qed.

(** C10.  In a guest session ([isGuest] holds of the renders) a crash loss
    leaves [totalWagered], [gamesPlayed] and [currentStreak] unchanged, while
    a cash-out credits the winnings to [xp] and adds them to [totalWon], adds
    the wager to [totalWagered] and one to [gamesPlayed].  [rc] is the render
    of the crash, [ro] the render of the cash-out. *)
Theorem guest_settlement_asymmetry
  (chance : Q) (rc ro : State) (w : World) :
  isGuest rc = true ->
  isGuest ro = true ->
  isRunning (game ro) = true ->
  userCashedOut (game ro) = false ->
  let lost := user (store (fst (crashGame chance rc w))) in
  let won := user (store (cashOut ro w)) in
  let winnings := winningsOf (userWagerXP (game ro)) (currentMultiplier (game ro))
                             (xpBoostMultiplier (creator ro)) in
  (totalWagered lost = totalWagered (user (store w)) /\
   gamesPlayed lost = gamesPlayed (user (store w)) /\
   currentStreak lost = currentStreak (user (store w))) /\
  (xp won = xp (user (store w)) + winnings /\
   totalWon won = totalWon (user (store w)) + winnings /\
   totalWagered won = totalWagered (user (store w)) + userWagerXP (game ro) /\
   gamesPlayed won = gamesPlayed (user (store w)) + 1).
Proof.
  intros Gc Go Hrun Hco lost won winnings. split.
  - subst lost. rewrite (crashGame_guest_user chance rc w Gc). repeat split.
  - destruct (cashOut_credits ro w Hrun Hco)
      as (_ & _ & _ & Hxp & Hwon & Hwag & Hgp & _).
    subst won winnings. repeat split; auto.
Qed.

Lemma guest_settlement_asymmetry_witness :
  gamesPlayed (user (store (fst (crashGame 0.5 initialState Round1.wagered))))
    = 0 /\
  gamesPlayed (user (store (cashOut (store Round1.wagered)
                                    Round1.wagered))) = 0 + 1.
Proof.
  destruct (guest_settlement_asymmetry 0.5 initialState
              (store Round1.wagered) Round1.wagered
              eq_refl eq_refl eq_refl eq_refl)
    as ((_ & Hl & _) & (_ & _ & _ & Hw)).
  split; [exact Hl | exact Hw].
Defined.

(** * Further properties of the round engine *)

(** ** Wager controls *)

(** X1.  [setWager] always leaves a wager of at least 10 that is a multiple
    of 10: the amount rounded down to a multiple of 10, or 10 for a smaller
    amount.  Nothing else of the state changes: every other field of the
    round, the player, the creator, the auto-play settings and the sign-in
    flag are those of the state before. *)
Theorem setWager_rounds_down (amount : Z) (s : State) :
  let s' := setWager amount s in
  let wager := userWagerXP (game s') in
  10 <= wager /\
  (10 | wager) /\
  (10 <= amount -> wager <= amount < wager + 10) /\
  (amount < 10 -> wager = 10) /\
  game s' =
    mkGame (isRunning (game s)) (isCrashed (game s))
           (currentMultiplier (game s)) (crashPoint (game s)) wager
           (userCashOutMultiplier (game s)) (userWinningsXP (game s))
           (autoCashOut (game s)) (userCashedOut (game s))
           (isExploding (game s)) (isWaiting (game s)) (lastRounds (game s)) /\
  user s' = user s /\
  creator s' = creator s /\
  autoPlay s' = autoPlay s /\
  isAuthReady s' = isAuthReady s.
Proof.
  cbn. repeat apply conj; try reflexivity.
  - lia.
  - destruct (Z.max_spec 10 (amount / 10 * 10)) as [[_ E]|[_ E]]; rewrite E.
    + exists (amount / 10). reflexivity.
    + exists 1. reflexivity.
  - intro H. pose proof (Z.div_mod amount 10 ltac:(lia)) as D.
    pose proof (Z.mod_pos_bound amount 10 ltac:(lia)) as B. lia.
  - intro H. pose proof (Z.div_mod amount 10 ltac:(lia)) as D.
    pose proof (Z.mod_pos_bound amount 10 ltac:(lia)) as B. lia.
Qed.

Lemma setWager_rounds_down_witness :
  userWagerXP (game (setWager 257 initialState)) <= 257
    < userWagerXP (game (setWager 257 initialState)) + 10 /\
  userWagerXP (game (setWager 7 initialState)) = 10.
Proof.
  destruct (setWager_rounds_down 257 initialState) as (_ & _ & H257 & _).
  destruct (setWager_rounds_down 7 initialState) as (_ & _ & _ & H7 & _).
  split; [apply H257; lia | apply H7; lia].
Defined.

(** The [+] button never raises the wager above the balance of its
    render and the [-] button never lowers it below 10; away from these
    bounds they move the wager by 10. *)
Theorem wager_buttons_bounded (r s : State) :
  userWagerXP (game (increaseWager r s)) <= xp (user r) /\
  10 <= userWagerXP (game (decreaseWager s)) /\
  (userWagerXP (game s) + 10 <= xp (user r) ->
   userWagerXP (game (increaseWager r s)) = userWagerXP (game s) + 10) /\
  (20 <= userWagerXP (game s) ->
   userWagerXP (game (decreaseWager s)) = userWagerXP (game s) - 10).
Proof.
  cbn. repeat apply conj; intros; lia.
Qed.

Lemma wager_buttons_bounded_witness :
  userWagerXP (game (increaseWager initialState initialState)) = 50 + 10 /\
  userWagerXP (game (decreaseWager initialState)) = 50 - 10.
Proof.
  split.
  - apply (wager_buttons_bounded initialState initialState). cbn. lia.
  - apply (wager_buttons_bounded initialState initialState). cbn. lia.
Defined.

(** ** Clicking twice *)

(** X2.  A second click on PLACE WAGER changes nothing: either the first
    click was rejected and so is the second, or the round is running and the
    second click is rejected for that.  The wager is taken once. *)
Theorem clickPlaceWager_twice (u1 o1 u2 o2 : Q) (w : World) :
  clickPlaceWager u2 o2 (clickPlaceWager u1 o1 w) = clickPlaceWager u1 o1 w.
Proof.
  unfold clickPlaceWager at 2 3. unfold placeWager.
  destruct (isRunning (game (store w))) eqn:Hrun.
  - unfold clickPlaceWager, placeWager. now rewrite Hrun.
  - destruct (userWagerXP (game (store w)) <=? 0) eqn:H0.
    + unfold clickPlaceWager, placeWager. now rewrite Hrun, H0.
    + destruct (userWagerXP (game (store w)) >? xp (user (store w))) eqn:H1.
      * unfold clickPlaceWager, placeWager. now rewrite Hrun, H0, H1.
      * apply placeWager_rejects_running. reflexivity.
Qed.

(** X3.  A second click on CASH OUT changes nothing: an accepted cash-out
    marks the round as cashed out, also when it ends at the exception of a
    shared win and leaves the round running, so the winnings are paid
    once. *)
Theorem clickCashOut_twice (w : World) :
  clickCashOut (clickCashOut w) = clickCashOut w.
Proof.
  unfold clickCashOut at 2 3.
  destruct (isRunning (game (store w))) eqn:Hrun;
    destruct (userCashedOut (game (store w))) eqn:Hco.
  - rewrite (cashOut_noop (store w) w) by (now right).
    apply cashOut_noop. now right.
  - apply cashOut_noop. right.
    exact (proj1 (proj2 (proj2 (cashOut_credits (store w) w Hrun Hco)))).
  - rewrite (cashOut_noop (store w) w) by (now left).
    apply cashOut_noop. now left.
  - rewrite (cashOut_noop (store w) w) by (now left).
    apply cashOut_noop. now left.
Qed.

(** ** A round from wager to settlement *)


(** A tick writes nothing but the multiplier shown. *)
Lemma set_currentMultiplier_same (s : State) :
  setGame (set_currentMultiplier (currentMultiplier (game s))) s = s.
Proof. destruct s as [[] ? ? ? ?]. reflexivity. Qed.

Lemma climbTick_frame (elapsed : Z) (w : World) :
  exists m, store (fst (climbTick elapsed w)) =
            setGame (set_currentMultiplier m) (store w).
Proof.
  unfold climbTick.
  assert (U : forall c x, exists m,
            store (climbUpdate c x w) = setGame (set_currentMultiplier m) (store w)).
  { intros c x. unfold climbUpdate. destruct (Qgtb _ _).
    - exists x. reflexivity.
    - exists (currentMultiplier (game (store w))).
      now rewrite set_currentMultiplier_same. }
  destruct (multiplierIntervalRef w) as [c|].
  - destruct (crashPoint (game (closure c))) as [cp|]; [|apply U].
    destruct (negb (Qeq_bool cp 0) && Qgeb (newMultiplierAt elapsed) cp);
      [|apply U].
    exists cp. reflexivity.
  - exists (currentMultiplier (game (store w))).
    cbn. now rewrite set_currentMultiplier_same.
Qed.

Lemma runTicks_acc_frame (times : list Z) (acc : World * option State) :
  exists m,
    store (fst (fold_left (fun a elapsed =>
                   match snd a with
                   | Some _ => a
                   | None => climbTick elapsed (fst a)
                   end) times acc)) =
    setGame (set_currentMultiplier m) (store (fst acc)).
Proof.
  revert acc. induction times as [|t ts IH]; intro acc; cbn [fold_left].
  - exists (currentMultiplier (game (store (fst acc)))).
    now rewrite set_currentMultiplier_same.
  - destruct (snd acc) eqn:E.
    + apply IH.
    + destruct (IH (climbTick t (fst acc))) as [m Hm].
      destruct (climbTick_frame t (fst acc)) as [m' Hm'].
      exists m. rewrite Hm, Hm'. reflexivity.
Qed.

Lemma runTicks_frame (times : list Z) (w : World) :
  exists m, store (fst (runTicks times w)) =
            setGame (set_currentMultiplier m) (store w).
Proof. apply (runTicks_acc_frame times (w, None)). Qed.



(** X5.  The balance over a whole round that is cashed out.  Whatever ticks
    have run since the wager, a click on CASH OUT is accepted and leaves the
    balance at [xp - wager + floor (wager * m * boost)], [m] being the
    multiplier shown at the click, and settles the round as cashed out, when
    the win is not shared (a guest, or winnings of at most 1000 XP). *)
Theorem round_cashOut_balance
  (random offset : Q) (times : list Z) (w : World) :
  isRunning (game (store w)) = false ->
  0 < userWagerXP (game (store w)) <= xp (user (store w)) ->
  let wager := userWagerXP (game (store w)) in
  let w1 := fst (runTicks times (clickPlaceWager random offset w)) in
  let winnings := winningsOf wager (currentMultiplier (game (store w1)))
                             (xpBoostMultiplier (creator (store w))) in
  let w2 := clickCashOut w1 in
  isGuest (store w) = true \/ winnings <= 1000 ->
  xp (user (store w2)) = xp (user (store w)) - wager + winnings /\
  userWinningsXP (game (store w2)) = winnings /\
  totalWagered (user (store w2)) = totalWagered (user (store w)) + wager /\
  status (game (store w2)) = CashedOut.
Proof.
  intros Hrun Hw wager w1 winnings w2 Hbonus.
  destruct (runTicks_frame times (clickPlaceWager random offset w)) as [m Hm].
  fold w1 in Hm.
  assert (E : clickPlaceWager random offset w
              = placeWager random offset (store w) w) by reflexivity.
  rewrite placeWager_accepted in E by assumption.
  rewrite E in Hm. cbn in Hm.
  assert (R1 : isRunning (game (store w1)) = true) by (rewrite Hm; reflexivity).
  assert (C1 : userCashedOut (game (store w1)) = false) by (rewrite Hm; reflexivity).
  assert (G1 : userWagerXP (game (store w1)) = wager) by (rewrite Hm; reflexivity).
  assert (B1 : xpBoostMultiplier (creator (store w1))
               = xpBoostMultiplier (creator (store w))) by (rewrite Hm; reflexivity).
  assert (X1 : xp (user (store w1)) = xp (user (store w)) - wager)
    by (rewrite Hm; reflexivity).
  assert (T1 : totalWagered (user (store w1)) = totalWagered (user (store w)))
    by (rewrite Hm; reflexivity).
  assert (Gu : isGuest (store w1) = isGuest (store w)) by (rewrite Hm; reflexivity).
  destruct (cashOut_credits (store w1) w1 R1 C1)
    as (Hwin & _ & _ & Hxp & _ & Hwag & _).
  pose proof (cashOut_settles (store w1) w1 R1 C1) as Hend.
  rewrite G1, B1 in Hwin, Hxp, Hend. rewrite Gu in Hend.
  fold winnings in Hwin, Hxp, Hend.
  subst w2. unfold clickCashOut.
  repeat apply conj.
  - rewrite Hxp. lia.
  - exact Hwin.
  - rewrite Hwag, T1, G1. reflexivity.
  - exact (proj1 (Hend Hbonus)).
Qed.

Lemma round_cashOut_balance_witness :
  xp (user (store (clickCashOut
        (fst (runTicks (tickTimes 100) (clickPlaceWager 0.2 0.5 initialWorld))))))
  = 1000 - 50
    + winningsOf 50
        (currentMultiplier (game (store
           (fst (runTicks (tickTimes 100)
                   (clickPlaceWager 0.2 0.5 initialWorld))))))
        (xpBoostMultiplier (creator initialState)).
Proof.
  apply (round_cashOut_balance 0.2 0.5 (tickTimes 100) initialWorld);
    [reflexivity | cbn; lia | left; reflexivity].
Defined.

(** X29.  A win above 1000 XP is paid to a signed-in player but the round
    is not settled.  For a render that shows a running round, not cashed
    out, of a signed-in player, a cash-out of more than 1000 XP credits the
    winnings, counts the game and marks the round as cashed out; it ends at
    the exception of the shared win, so the round keeps the running flag it
    had, the climb stays installed and the win streak is not counted.  After
    a click the round is still running and further clicks do nothing. *)
Theorem cashOut_big_win_not_settled (r : State) (w : World) :
  isRunning (game r) = true ->
  userCashedOut (game r) = false ->
  isGuest r = false ->
  let winnings := winningsOf (userWagerXP (game r)) (currentMultiplier (game r))
                             (xpBoostMultiplier (creator r)) in
  winnings > 1000 ->
  let w' := cashOut r w in
  xp (user (store w')) = xp (user (store w)) + winnings /\
  totalWon (user (store w')) = totalWon (user (store w)) + winnings /\
  gamesPlayed (user (store w')) = gamesPlayed (user (store w)) + 1 /\
  userCashedOut (game (store w')) = true /\
  isRunning (game (store w')) = isRunning (game (store w)) /\
  multiplierIntervalRef w' = multiplierIntervalRef w /\
  currentStreak (user (store w')) = currentStreak (user (store w)) /\
  (isRunning (game (store w)) = true ->
   status (game (store w')) = Running /\ clickCashOut w' = w').
Proof.
  intros Hrun Hco G winnings Hbig w'.
  destruct (cashOut_credits r w Hrun Hco)
    as (_ & _ & Hc & Hxp & Hwon & _ & Hgp & _).
  destruct (cashOut_aborts r w Hrun Hco G Hbig) as (Hr & _ & Hi & Hcs & _).
  fold w' in Hc, Hxp, Hwon, Hgp, Hr, Hi, Hcs. fold winnings in Hxp, Hwon.
  repeat apply conj; try assumption.
  intro Hw. split.
  - unfold status. now rewrite Hr, Hw.
  - apply cashOut_noop. now right.
Qed.

Lemma cashOut_big_win_not_settled_witness :
  xp (user (store BigWin.cashed)) = 0 + 3030 /\
  status (game (store BigWin.cashed)) = Running.
Proof.
  destruct (cashOut_big_win_not_settled (store BigWin.climbed) BigWin.climbed)
    as (Hxp & _ & _ & _ & _ & _ & _ & Hst);
    try (vm_compute; reflexivity).
  split; [exact Hxp | exact (proj1 (Hst eq_refl))].
Defined.

(** After the cash-out of [BigWin] the climb goes on: the tick at 450 ms
    moves the multiplier to 1.02025. *)
Example BigWin_keeps_climbing :
  multiplierIntervalRef BigWin.cashed <> None /\
  Qeq (currentMultiplier (game (store (fst (runTicks [450] BigWin.cashed)))))
      1.02025%Q.
Proof.
  split; [vm_compute; discriminate | vm_compute; reflexivity].
Qed.

(** ** Settlement by crash *)

(** X6.  Settling a crash never touches the balance: whatever the render,
    [crashGame] leaves [xp], [totalWon], [biggestWin], [winStreak] and the
    cosmetics as they are, and counts at most one game. *)
Theorem crashGame_keeps_balance (chance : Q) (r : State) (w : World) :
  let u := user (store w) in
  let u' := user (store (fst (crashGame chance r w))) in
  xp u' = xp u /\
  totalWon u' = totalWon u /\
  biggestWin u' = biggestWin u /\
  winStreak u' = winStreak u /\
  unlockedCosmetics u' = unlockedCosmetics u /\
  (gamesPlayed u' = gamesPlayed u \/ gamesPlayed u' = gamesPlayed u + 1).
Proof.
  unfold crashGame, updateWinStreak.
  destruct (userCashedOut (game r)); cbn;
    [repeat split; now left|].
  destruct (isAuthReady r && negb (id (user r) =? "guest_user")%string);
    destruct (isGuest r); cbn; repeat split; auto.
Qed.

(** X7.  A crash seen from the render of a signed-in player who has not
    cashed out is counted exactly once: the wager is added to
    [totalWagered], one game to [gamesPlayed] and to [dailyGamesPlayed], and
    the running streak ends. *)
Theorem crash_loss_counted_once (chance : Q) (r : State) (w : World) :
  isGuest r = false ->
  userCashedOut (game r) = false ->
  let u := user (store w) in
  let u' := user (store (fst (crashGame chance r w))) in
  totalWagered u' = totalWagered u + userWagerXP (game r) /\
  gamesPlayed u' = gamesPlayed u + 1 /\
  dailyGamesPlayed u' = dailyGamesPlayed u + 1 /\
  currentStreak u' = 0.
Proof.
  intros G Hco. unfold crashGame, updateWinStreak. rewrite Hco, G.
  unfold isGuest in G. apply orb_false_iff in G. destruct G as [G1 G2].
  apply negb_false_iff in G1. rewrite G1, G2. cbn. repeat split.
Qed.

Lemma crash_loss_counted_once_witness :
  gamesPlayed (user (store (fst (crashGame 0.5 Revive.signedUp
                                   (mkWorld Revive.signedUp None)))))
  = gamesPlayed (user Revive.signedUp) + 1.
Proof.
  apply (crash_loss_counted_once 0.5 Revive.signedUp
           (mkWorld Revive.signedUp None)); reflexivity.
Defined.

(** X8.  After a crash the second chance is offered exactly when the render
    shows no cash-out and the draw is below 0.3; otherwise the round is
    reset by the one-second timer. *)
Theorem crashGame_offers_second_chance (chance : Q) (r : State) (w : World) :
  snd (crashGame chance r w) = SecondChanceOffer <->
  userCashedOut (game r) = false /\ (chance < 0.3)%Q.
Proof.
  unfold crashGame. destruct (userCashedOut (game r)); cbn.
  - split; [discriminate | intros [H _]; discriminate H].
  - destruct (Qltb chance 0.3) eqn:E.
    + apply Qltb_iff in E. tauto.
    + apply Qltb_false_iff in E. split; [discriminate|].
      intros [_ H]. lra.
Qed.

Lemma crashGame_offers_second_chance_witness :
  snd (crashGame 0.1 initialState initialWorld) = SecondChanceOffer.
Proof.
  apply (proj2 (crashGame_offers_second_chance 0.1 initialState initialWorld)).
  split; [reflexivity | vm_compute; reflexivity].
Defined.

(** X28.  Every settlement by crash puts the round's final multiplier at the
    head of the history; the history never grows beyond 10 entries; a full
    history loses its last, oldest entry. *)
Theorem crashGame_records_history (chance : Q) (r : State) (w : World) :
  let final := currentMultiplier (game (store w)) in
  let old := lastRounds (game (store w)) in
  let w' := fst (crashGame chance r w) in
  let new := lastRounds (game (store w')) in
  isCrashed (game (store w')) = true /\
  isRunning (game (store w')) = false /\
  hd_error new = Some final /\
  (List.length new <= 10)%nat /\
  ((List.length old < 10)%nat -> new = final :: old) /\
  ((List.length old = 10)%nat -> new = final :: removelast old).
Proof.
  intros final old w' new.
  assert (E : new = final :: firstn 9 old) by apply crashGame_lastRounds.
  destruct (crashGame_flags chance r w) as (Hrun & Hcr & _).
  repeat apply conj; try assumption.
  - now rewrite E.
  - rewrite E. cbn [List.length]. pose proof (firstn_le_length 9 old). lia.
  - intro H. rewrite E. f_equal. apply firstn_all2. lia.
  - intro H. rewrite E. f_equal.
    rewrite removelast_firstn_len, H. reflexivity.
Qed.

Lemma crashGame_records_history_witness :
  let w := mkWorld (setGame (fun prev =>
                      prev |> set_currentMultiplier 1.30%Q
                           |> set_lastRounds [1; 2; 3; 4; 5; 6; 7; 8; 9; 10]%Q)
                      initialState) None in
  lastRounds (game (store (fst (crashGame 0.5 (store w) w)))) =
  [1.30; 1; 2; 3; 4; 5; 6; 7; 8; 9]%Q.
Proof.
  intro w.
  exact (proj2 (proj2 (proj2 (proj2 (proj2
           (crashGame_records_history 0.5 (store w) w))))) eq_refl).
Defined.

(** ** Second chance *)





(** * Further properties of the reward economy *)

(** ** Win streak *)

(** X11.  [winStreak] is the record of [currentStreak]: an update keeps
    [0 <= currentStreak <= winStreak] and never lowers the record; for a
    signed-in render a win adds one to the running streak and a loss ends
    it. *)
Theorem updateWinStreak_keeps_record (won : bool) (r s : State) :
  0 <= currentStreak (user s) <= winStreak (user s) ->
  let u' := user (updateWinStreak won r s) in
  0 <= currentStreak u' <= winStreak u' /\
  winStreak (user s) <= winStreak u' /\
  (isGuest r = false -> won = true ->
   currentStreak u' = currentStreak (user s) + 1) /\
  (isGuest r = false -> won = false ->
   currentStreak u' = 0 /\ winStreak u' = winStreak (user s)) /\
  xp u' = xp (user s).
Proof.
  intros H. unfold updateWinStreak.
  destruct (isGuest r); [cbn; repeat split; try lia; discriminate|].
  destruct won; cbn.
  - destruct (currentStreak (user s) + 1 >? winStreak (user s)) eqn:E;
      [apply Z.gtb_gt in E | rewrite Z.gtb_ltb in E; apply Z.ltb_ge in E];
      repeat split; try lia; discriminate.
  - repeat split; try lia; discriminate.
Qed.

Lemma updateWinStreak_keeps_record_witness :
  currentStreak (user (updateWinStreak true Revive.signedUp Revive.signedUp))
  = currentStreak (user Revive.signedUp) + 1.
Proof.
  apply (updateWinStreak_keeps_record true Revive.signedUp Revive.signedUp);
    [cbn; lia | reflexivity | reflexivity].
Defined.

(** ** Cosmetics *)

Lemma includes_In (l : list string) (x : string) :
  includes l x = true <-> In x l.
Proof.
  unfold includes. rewrite existsb_exists. split.
  - intros (y & Hy & E). apply String.eqb_eq in E. now subst.
  - intro H. exists x. split; [exact H | apply String.eqb_refl].
Qed.

Lemma includes_app_last (l : list string) (x : string) :
  includes (l ++ [x]) x = true.
Proof. apply includes_In, in_or_app. right. now left. Qed.

(** X12.  Buying the same cosmetic twice charges once: a second click on
    Buy, from the render that follows the first, changes nothing. *)
Theorem buyCosmetic_twice (cid : string) (price : Z) (s : State) :
  let s' := buyCosmetic cid price s s in
  buyCosmetic cid price s' s' = s'.
Proof.
  cbn zeta.
  destruct (isGuest s) eqn:G.
  { assert (E : buyCosmetic cid price s s = s)
      by (unfold buyCosmetic; now rewrite G).
    now rewrite !E. }
  destruct (includes (unlockedCosmetics (user s)) cid) eqn:I.
  { assert (E : buyCosmetic cid price s s = s)
      by (unfold buyCosmetic; now rewrite G, I).
    now rewrite !E. }
  destruct (xp (user s) <? price) eqn:P.
  { assert (E : buyCosmetic cid price s s = s)
      by (unfold buyCosmetic; now rewrite G, I, P).
    now rewrite !E. }
  set (s' := buyCosmetic cid price s s).
  assert (Hg : isGuest s' = false).
  { subst s'. unfold buyCosmetic. rewrite G, I, P. exact G. }
  assert (Hi : includes (unlockedCosmetics (user s')) cid = true).
  { subst s'. unfold buyCosmetic. rewrite G, I, P. apply includes_app_last. }
  unfold buyCosmetic at 1. now rewrite Hg, Hi.
Qed.

(** X13.  A purchase that passes the three guards takes the price, unlocks
    and equips the cosmetic, and keeps the list of cosmetics free of
    duplicates; a purchase stopped by a guard changes nothing. *)
Theorem buyCosmetic_outcome (cid : string) (price : Z) (r s : State) :
  (isGuest r = false ->
   includes (unlockedCosmetics (user r)) cid = false ->
   price <= xp (user r) ->
   let u' := user (buyCosmetic cid price r s) in
   xp u' = xp (user s) - price /\
   includes (unlockedCosmetics u') cid = true /\
   activeCosmetic u' = cid /\
   (unlockedCosmetics (user r) = unlockedCosmetics (user s) ->
    NoDup (unlockedCosmetics (user s)) -> NoDup (unlockedCosmetics u'))) /\
  (isGuest r = true \/ includes (unlockedCosmetics (user r)) cid = true
   \/ xp (user r) < price ->
   buyCosmetic cid price r s = s).
Proof.
  split.
  - intros G I P. unfold buyCosmetic. rewrite G, I.
    apply Z.ltb_ge in P. rewrite P. cbn.
    repeat split.
    + apply includes_app_last.
    + intros E N. apply NoDup_app; [exact N | repeat constructor; intros [] | ].
      intros x Hx [Hc|[]]. subst x.
      rewrite E in I. apply includes_In in Hx. congruence.
  - intros [G|[I|P]]; unfold buyCosmetic.
    + now rewrite G.
    + rewrite I. now destruct (isGuest r).
    + apply Z.ltb_lt in P. rewrite P.
      destruct (isGuest r); [reflexivity|].
      now destruct (includes _ _).
Qed.

Lemma buyCosmetic_outcome_witness :
  xp (user (buyCosmetic "golden_ring" 500 Revive.signedUp Revive.signedUp))
    = 1000 - 500 /\
  buyCosmetic "golden_ring" 500 initialState initialState = initialState.
Proof.
  split.
  - apply (proj1 (buyCosmetic_outcome "golden_ring" 500
                    Revive.signedUp Revive.signedUp));
      [reflexivity | reflexivity | cbn; lia].
  - apply (proj2 (buyCosmetic_outcome "golden_ring" 500
                    initialState initialState)).
    left. reflexivity.
Defined.

(** ** Mystery Box *)

(** The four spans of the table, by the draw [u]. *)
Lemma mysteryBox_sample (u : Q) :
  (0 <= u < 1)%Q ->
  getWeightedRandomReward rewards u =
    if Qltb u 0.5 then nth_error rewards 0
    else if Qltb u 0.7 then nth_error rewards 1
    else if Qltb u 0.8 then nth_error rewards 2
    else nth_error rewards 3.
Proof.
  intros [H0 H1].
  unfold getWeightedRandomReward, sampleReward, totalWeight, rewards.
  cbn [fold_left walkRewards weight nth_error].
  set (r := (u * (0 + 5 + 2 + 1 + 2))%Q).
  assert (Hr : (r == u * 10)%Q) by (unfold r; lra).
  destruct (Qltb u 0.5) eqn:A.
  { apply Qltb_iff in A.
    assert (T : Qltb r 5 = true) by (apply Qltb_iff; lra).
    now rewrite T. }
  apply Qltb_false_iff in A.
  assert (T1 : Qltb r 5 = false) by (apply Qltb_false_iff; lra).
  rewrite T1.
  destruct (Qltb u 0.7) eqn:B.
  { apply Qltb_iff in B.
    assert (T : Qltb (r - 5) 2 = true) by (apply Qltb_iff; lra).
    now rewrite T. }
  apply Qltb_false_iff in B.
  assert (T2 : Qltb (r - 5) 2 = false) by (apply Qltb_false_iff; lra).
  rewrite T2.
  destruct (Qltb u 0.8) eqn:C.
  { apply Qltb_iff in C.
    assert (T : Qltb (r - 5 - 2) 1 = true) by (apply Qltb_iff; lra).
    now rewrite T. }
  apply Qltb_false_iff in C.
  assert (T3 : Qltb (r - 5 - 2) 1 = false) by (apply Qltb_false_iff; lra).
  rewrite T3.
  assert (T4 : Qltb (r - 5 - 2 - 1) 2 = true) by (apply Qltb_iff; lra).
  now rewrite T4.
Qed.

(** A cosmetic reward: unlocked and equipped when new, 200 XP when already
    owned. *)
Lemma applyReward_cosmetic (reward : Reward) (cid : string) (t : State) :
  type reward = cosmetic ->
  cosmeticId reward = Some cid ->
  let t' := applyReward reward t in
  includes (unlockedCosmetics (user t')) cid = true /\
  xp (user t') = (if includes (unlockedCosmetics (user t)) cid
                  then xp (user t) + 200 else xp (user t)) /\
  (includes (unlockedCosmetics (user t)) cid = true ->
   unlockedCosmetics (user t') = unlockedCosmetics (user t) /\
   activeCosmetic (user t') = activeCosmetic (user t)).
Proof.
  intros Ht Hc t'. subst t'.
  assert (E : applyReward reward t =
            setUser (fun prev =>
              if negb (includes (unlockedCosmetics prev) cid) then
                prev |> set_unlockedCosmetics (unlockedCosmetics prev ++ [cid])
                     |> set_activeCosmetic cid
              else set_xp (xp prev + 200) prev) t).
  { unfold applyReward. rewrite Ht, Hc. destruct (amount reward); reflexivity. }
  rewrite E. unfold setUser. cbn [user].
  destruct (includes (unlockedCosmetics (user t)) cid) eqn:I; cbn [negb].
  - repeat split. exact I.
  - repeat split.
    + exact (includes_app_last (unlockedCosmetics (user t)) cid).
    + discriminate.
    + discriminate.
Qed.

(** X14.  What a Mystery Box gives a signed-in player, by the draw [u] in
    [[0,1)]: 500 XP below 0.5, 1000 XP from 0.5 to 0.7, the golden ring from
    0.7 to 0.8 (200 XP instead when it is already owned), the boost 1.1 from
    0.8 on.  The balance never goes down; a guest gets nothing. *)
Theorem triggerMysteryBox_outcome (u : Q) (r s : State) :
  (0 <= u < 1)%Q ->
  let s' := triggerMysteryBox u r s in
  (isGuest r = true -> s' = s) /\
  (isGuest r = false ->
   xp (user s) <= xp (user s') /\
   ((u < 0.5)%Q -> xp (user s') = xp (user s) + 500) /\
   ((0.5 <= u < 0.7)%Q -> xp (user s') = xp (user s) + 1000) /\
   ((0.7 <= u < 0.8)%Q ->
    includes (unlockedCosmetics (user s')) "golden_ring" = true /\
    xp (user s') =
      if includes (unlockedCosmetics (user s)) "golden_ring"
      then xp (user s) + 200 else xp (user s)) /\
   ((0.8 <= u)%Q ->
    xpBoostMultiplier (creator s') = 1.1%Q /\ user s' = user s)).
Proof.
  intros Hu s'. subst s'. unfold triggerMysteryBox.
  split; [intro G; now rewrite G|].
  intro G. rewrite G, (mysteryBox_sample u Hu).
  destruct (Qltb u 0.5) eqn:A.
  { apply Qltb_iff in A. cbn. repeat split; intros; try lra; lia. }
  apply Qltb_false_iff in A.
  destruct (Qltb u 0.7) eqn:B.
  { apply Qltb_iff in B. cbn. repeat split; intros; try lra; lia. }
  apply Qltb_false_iff in B.
  destruct (Qltb u 0.8) eqn:C.
  { apply Qltb_iff in C.
    destruct (applyReward_cosmetic
                (mkReward cosmetic epic "Golden Ring Cosmetic!" None
                          (Some "golden_ring"%string) None None 1%Q)
                "golden_ring" s eq_refl eq_refl) as (Hin & Hxp & _).
    change (nth_error rewards 2)
      with (Some (mkReward cosmetic epic "Golden Ring Cosmetic!" None
                           (Some "golden_ring"%string) None None 1%Q)).
    repeat split; intros; try lra; try assumption.
    rewrite Hxp.
    destruct (includes (unlockedCosmetics (user s)) "golden_ring"); lia. }
  apply Qltb_false_iff in C.
  cbn. repeat split; intros; try lra; lia.
Qed.

Lemma triggerMysteryBox_outcome_witness :
  xp (user (triggerMysteryBox 0.6 Revive.signedUp Revive.signedUp))
  = xp (user Revive.signedUp) + 1000.
Proof.
  assert (Hu : (0 <= 0.6 < 1)%Q) by (split; vm_compute; intuition discriminate).
  apply (proj2 (triggerMysteryBox_outcome 0.6 Revive.signedUp Revive.signedUp Hu)
           eq_refl).
  split; vm_compute; intuition discriminate.
Defined.

(** X15.  A cosmetic reward drawn again pays the consolation: applying the
    same cosmetic reward a second time adds 200 XP and leaves the cosmetics
    as they were after the first. *)
Theorem applyReward_cosmetic_twice (reward : Reward) (cid : string) (s : State) :
  type reward = cosmetic ->
  cosmeticId reward = Some cid ->
  let s1 := applyReward reward s in
  let s2 := applyReward reward s1 in
  includes (unlockedCosmetics (user s1)) cid = true /\
  xp (user s2) = xp (user s1) + 200 /\
  unlockedCosmetics (user s2) = unlockedCosmetics (user s1) /\
  activeCosmetic (user s2) = activeCosmetic (user s1).
Proof.
  intros Ht Hc s1 s2.
  destruct (applyReward_cosmetic reward cid s Ht Hc) as (I1 & _ & _).
  fold s1 in I1.
  destruct (applyReward_cosmetic reward cid s1 Ht Hc) as (_ & Hxp & Hsame).
  fold s2 in Hxp, Hsame. rewrite I1 in Hxp.
  destruct (Hsame I1) as [Hu Ha]. auto.
Qed.

Lemma applyReward_cosmetic_twice_witness :
  xp (user (applyReward (nth 2 rewards (mkReward cosmetic epic "" None None None None 0))
              (applyReward (nth 2 rewards (mkReward cosmetic epic "" None None None None 0))
                 initialState)))
  = xp (user (applyReward (nth 2 rewards (mkReward cosmetic epic "" None None None None 0))
                initialState)) + 200.
Proof.
  apply (applyReward_cosmetic_twice
           (nth 2 rewards (mkReward cosmetic epic "" None None None None 0))
           "golden_ring" initialState); reflexivity.
Defined.

(** * Auto-play *)


(** Stopping auto-play switches it off and puts the round counter back
    to 0, keeps its settings, touches neither the round nor the player, and
    stopping twice is stopping once. *)
Theorem autoPlayStop_resets (s : State) :
  let s' := autoPlayStop s in
  enabled (autoPlay s') = false /\
  currentRound (autoPlay s') = 0 /\
  isExecutingAutoRound (autoPlay s') = false /\
  wagerAmount (autoPlay s') = wagerAmount (autoPlay s) /\
  cashOutAt (autoPlay s') = cashOutAt (autoPlay s) /\
  maxRounds (autoPlay s') = maxRounds (autoPlay s) /\
  stopOnWin (autoPlay s') = stopOnWin (autoPlay s) /\
  stopOnLoss (autoPlay s') = stopOnLoss (autoPlay s) /\
  game s' = game s /\ user s' = user s /\
  autoPlayStop s' = s'.
Proof. cbn. repeat split. Qed.



(** X18.  A click on Start Auto Play from a render in which auto-play is
    off and no round is running places no wager: the first round reads
    [autoPlay.enabled] of that render and stops auto-play again.  From a
    render that shows a running round the click only switches auto-play
    on. *)
Theorem autoPlayStart_from_disabled (random offset : Q) (r : State) (w : World) :
  isGuest r = false ->
  isExecutingAutoRound (autoPlay r) = false ->
  enabled (autoPlay r) = false ->
  (isRunning (game r) = false ->
   autoPlayStart random offset r w = onStore autoPlayStop w) /\
  (isRunning (game r) = true ->
   let w' := autoPlayStart random offset r w in
   enabled (autoPlay (store w')) = true /\
   currentRound (autoPlay (store w')) = 0 /\
   user (store w') = user (store w) /\
   game (store w') = game (store w) /\
   multiplierIntervalRef w' = multiplierIntervalRef w).
Proof.
  intros G Hx He. split; intro Hrun; unfold autoPlayStart;
    rewrite G, Hx, Hrun.
  - unfold autoPlayExecuteRound. rewrite He. reflexivity.
  - cbn. repeat split.
Qed.

Lemma autoPlayStart_from_disabled_witness :
  autoPlayStart 0.2 0.5 Revive.signedUp (mkWorld Revive.signedUp None)
  = onStore autoPlayStop (mkWorld Revive.signedUp None).
Proof.
  apply (autoPlayStart_from_disabled 0.2 0.5 Revive.signedUp
           (mkWorld Revive.signedUp None)); reflexivity.
Defined.

(** X19.  A run of the polling interval cashes out exactly when its render
    shows a running round, automatic cash-out switched on and a multiplier
    that has reached the target: the result is then the world that [cashOut]
    of that render leaves, in which, if the render shows no cash-out yet,
    the winnings computed from the wager, multiplier and boost of the render
    are credited and the round is marked as cashed out at that multiplier.
    In every other case the run leaves the player, the round and the climb
    as they are; from a render that shows a waiting round it stops
    auto-play. *)
Theorem autoPlayPoll_decides (r : State) (w : World) :
  let target := isRunning (game r) = true /\ autoCashOut (game r) = true /\
                (cashOutAt (autoPlay r) <= currentMultiplier (game r))%Q in
  (snd (autoPlayPoll r w) = PollCashedOut <-> target) /\
  (target -> autoPlayPoll r w = (cashOut r w, PollCashedOut)) /\
  (target -> userCashedOut (game r) = false ->
   let w' := fst (autoPlayPoll r w) in
   xp (user (store w')) =
     xp (user (store w))
     + winningsOf (userWagerXP (game r)) (currentMultiplier (game r))
                  (xpBoostMultiplier (creator r)) /\
   userCashedOut (game (store w')) = true /\
   userCashOutMultiplier (game (store w')) = Some (currentMultiplier (game r))) /\
  (snd (autoPlayPoll r w) <> PollCashedOut ->
   user (store (fst (autoPlayPoll r w))) = user (store w) /\
   game (store (fst (autoPlayPoll r w))) = game (store w) /\
   multiplierIntervalRef (fst (autoPlayPoll r w)) = multiplierIntervalRef w) /\
  (isRunning (game r) = false -> isWaiting (game r) = true ->
   autoPlayPoll r w = (onStore autoPlayStop w, PollStopped)).
Proof.
  intro target.
  assert (T : target -> autoPlayPoll r w = (cashOut r w, PollCashedOut)).
  { intros (Hr & Ha & Hm). unfold autoPlayPoll. rewrite Hr, Ha.
    cbn [negb andb]. apply Qgeb_iff in Hm. now rewrite Hm. }
  repeat apply conj.
  - intro H. subst target. revert H. unfold autoPlayPoll.
    destruct (isRunning (game r)); cbn [negb andb].
    + destruct (autoCashOut (game r)); cbn [andb].
      * destruct (Qgeb _ _) eqn:E; cbn [snd]; [|discriminate].
        apply Qgeb_iff in E. tauto.
      * discriminate.
    + destruct (isWaiting (game r)); cbn; [discriminate|].
      destruct (stopOnWin (autoPlay r) && userCashedOut (game r));
        [discriminate|].
      destruct (stopOnLoss (autoPlay r) && isCrashed (game r)
                && negb (userCashedOut (game r))); discriminate.
  - intro H. now rewrite (T H).
  - exact T.
  - intros Ht Hco w'. subst w'. rewrite (T Ht). cbn [fst].
    destruct Ht as (Hr & _).
    destruct (cashOut_credits r w Hr Hco) as (_ & Hm & Hc & Hx & _).
    auto.
  - unfold autoPlayPoll.
    destruct (negb (isRunning (game r)) && isWaiting (game r));
      [intros _; repeat split|].
    destruct (negb (isRunning (game r))).
    + destruct (stopOnWin (autoPlay r) && userCashedOut (game r));
        [intros _; repeat split|].
      destruct (stopOnLoss (autoPlay r) && isCrashed (game r)
                && negb (userCashedOut (game r))); intros _; repeat split.
    + destruct (autoCashOut (game r)
                && Qgeb (currentMultiplier (game r)) (cashOutAt (autoPlay r)));
        [intro N; now contradiction N | intros _; repeat split].
  - intros Hr Hw. unfold autoPlayPoll. now rewrite Hr, Hw.
Qed.

Lemma autoPlayPoll_decides_witness :
  AutoCash.polled
    = (cashOut (store AutoCash.climbed) AutoCash.climbed, PollCashedOut) /\
  xp (user (store (fst AutoCash.polled))) = 950 + 50 /\
  autoPlayPoll initialState initialWorld
    = (onStore autoPlayStop initialWorld, PollStopped).
Proof.
  assert (Ht : isRunning (game (store AutoCash.climbed)) = true /\
               autoCashOut (game (store AutoCash.climbed)) = true /\
               (cashOutAt (autoPlay (store AutoCash.climbed))
                <= currentMultiplier (game (store AutoCash.climbed)))%Q).
  { repeat split; vm_compute; try reflexivity; discriminate. }
  destruct (autoPlayPoll_decides (store AutoCash.climbed) AutoCash.climbed)
    as (_ & Hcash & Hpaid & _ & _).
  destruct (autoPlayPoll_decides initialState initialWorld)
    as (_ & _ & _ & _ & Hstop).
  repeat apply conj.
  - exact (Hcash Ht).
  - exact (proj1 (Hpaid Ht eq_refl)).
  - exact (Hstop eq_refl eq_refl).
Defined.

(** * Leaderboard *)

Lemma rankedBefore_total (a b : LeaderboardEntry) :
  rankedBefore a b = false -> rankedBefore b a = true.
Proof.
  unfold rankedBefore.
  destruct (lb_xp b =? lb_xp a) eqn:E.
  - apply Z.eqb_eq in E. rewrite E, Z.eqb_refl. cbn.
    intro H. apply Qle_bool_iff.
    destruct (Qle_bool (lb_biggestMultiplier b) (lb_biggestMultiplier a)) eqn:L;
      [discriminate|].
    apply Qlt_le_weak, Qnot_le_lt. intro C.
    apply Qle_bool_iff in C. congruence.
  - apply Z.eqb_neq in E. cbn. intro H. apply Z.ltb_ge in H.
    destruct (lb_xp a =? lb_xp b) eqn:E'; [apply Z.eqb_eq in E'; lia|].
    cbn. apply Z.ltb_lt. lia.
Qed.

Lemma rankedBefore_xp (a b : LeaderboardEntry) :
  rankedBefore a b = true -> lb_xp b <= lb_xp a.
Proof.
  unfold rankedBefore.
  destruct (lb_xp b =? lb_xp a) eqn:E; cbn.
  - apply Z.eqb_eq in E. lia.
  - intro H. apply Z.ltb_lt in H. lia.
Qed.

Lemma insertRanked_perm (x : LeaderboardEntry) (l : list LeaderboardEntry) :
  Permutation (insertRanked x l) (x :: l).
Proof.
  induction l as [|y l IH]; cbn.
  - reflexivity.
  - destruct (rankedBefore x y); [reflexivity|].
    rewrite IH. apply perm_swap.
Qed.

Lemma sortRanked_perm (l : list LeaderboardEntry) :
  Permutation (sortRanked l) l.
Proof.
  induction l as [|x l IH]; cbn.
  - reflexivity.
  - rewrite insertRanked_perm. now constructor.
Qed.

Lemma insertRanked_sorted (x : LeaderboardEntry) (l : list LeaderboardEntry) :
  Sorted (fun a b => rankedBefore a b = true) l ->
  Sorted (fun a b => rankedBefore a b = true) (insertRanked x l).
Proof.
  induction l as [|y l IH]; intro S; cbn.
  - repeat constructor.
  - destruct (rankedBefore x y) eqn:E.
    + constructor; [exact S | constructor; exact E].
    + inversion S as [|? ? S' Hd]; subst.
      constructor; [apply IH; exact S'|].
      destruct l as [|z l]; cbn.
      * constructor. now apply rankedBefore_total.
      * destruct (rankedBefore x z).
        -- constructor. now apply rankedBefore_total.
        -- inversion Hd; subst. now constructor.
Qed.

Lemma sortRanked_sorted (l : list LeaderboardEntry) :
  Sorted (fun a b => rankedBefore a b = true) (sortRanked l).
Proof.
  induction l as [|x l IH]; cbn.
  - constructor.
  - now apply insertRanked_sorted.
Qed.

Lemma Sorted_weaken {A : Type} (R S : A -> A -> Prop) (l : list A) :
  (forall a b, R a b -> S a b) -> Sorted R l -> Sorted S l.
Proof.
  intros H. induction 1 as [|a l _ IH Hd]; constructor; [exact IH|].
  destruct Hd; constructor. now apply H.
Qed.

Lemma sortRanked_xp_sorted (l : list LeaderboardEntry) :
  StronglySorted (fun a b => lb_xp b <= lb_xp a) (sortRanked l).
Proof.
  apply Sorted_StronglySorted.
  - intros a b c Hab Hbc. lia.
  - apply (Sorted_weaken (fun a b => rankedBefore a b = true)).
    + apply rankedBefore_xp.
    + apply sortRanked_sorted.
Qed.

(** X20.  The sort of the leaderboard returns the same entries, ranked: each
    entry is ranked before the next by the comparator, and XP never
    increases down the list. *)
Theorem sortRanked_ranks (l : list LeaderboardEntry) :
  Permutation (sortRanked l) l /\
  Sorted (fun a b => rankedBefore a b = true) (sortRanked l) /\
  StronglySorted (fun a b => lb_xp b <= lb_xp a) (sortRanked l).
Proof.
  repeat apply conj.
  - apply sortRanked_perm.
  - apply sortRanked_sorted.
  - apply sortRanked_xp_sorted.
Qed.

Lemma markCurrent_flag (uid : string) (l : list LeaderboardEntry) :
  forall e, In e (map (markCurrent uid) l) ->
            isCurrentUser e = (lb_id e =? uid)%string.
Proof.
  intros e H. apply in_map_iff in H. destruct H as (p & <- & _). reflexivity.
Qed.

Lemma existsb_isCurrentUser_false (l : list LeaderboardEntry) :
  existsb isCurrentUser l = false -> filter isCurrentUser l = [].
Proof.
  induction l as [|x l IH]; cbn; [reflexivity|].
  destruct (isCurrentUser x); cbn; [discriminate | exact IH].
Qed.

(** X21.  The merge of the player into the fetched ranking.  In the result
    an entry is flagged as the current user exactly when it carries the
    player's id.  When a fetched row has the player's id the rows keep their
    order; otherwise (for a player who is not the guest) the player's own
    entry is added once and the whole list is ranked by XP. *)
Theorem mergeLeaderboard_merges
  (leaderboardData : list LeaderboardEntry) (u : UserData) :
  let result := mergeLeaderboard leaderboardData u in
  let found := existsb (fun p => (lb_id p =? id u)%string) leaderboardData in
  (forall e, In e result -> isCurrentUser e = (lb_id e =? id u)%string) /\
  (found = true ->
   result = map (markCurrent (id u)) leaderboardData) /\
  (found = false -> id u <> "guest_user"%string ->
   Permutation result
     (map (markCurrent (id u)) leaderboardData ++ [ownEntry u]) /\
   StronglySorted (fun a b => lb_xp b <= lb_xp a) result /\
   filter isCurrentUser result = [ownEntry u] /\
   List.length result = S (List.length leaderboardData)).
Proof.
  intros result found.
  assert (F : existsb isCurrentUser (map (markCurrent (id u)) leaderboardData)
              = found).
  { subst found. induction leaderboardData as [|p l IH]; cbn; [reflexivity|].
    now rewrite IH. }
  subst result. unfold mergeLeaderboard. rewrite F.
  destruct found eqn:Hf; cbn [negb andb].
  - repeat apply conj.
    + apply markCurrent_flag.
    + reflexivity.
    + discriminate.
  - destruct (id u =? "guest_user")%string eqn:Hg; cbn [negb].
    + repeat apply conj.
      * apply markCurrent_flag.
      * discriminate.
      * intros _ H. apply String.eqb_eq in Hg. contradiction.
    + set (sorted := sortRanked _).
      pose proof (sortRanked_perm
                    (map (markCurrent (id u)) leaderboardData ++ [ownEntry u]))
        as P.
      pose proof (sortRanked_xp_sorted
                    (map (markCurrent (id u)) leaderboardData ++ [ownEntry u]))
        as SS.
      fold sorted in P, SS.
      repeat apply conj.
      * intros e He. apply (Permutation_in _ P) in He.
        apply in_app_or in He. destruct He as [He|[<-|[]]].
        -- exact (markCurrent_flag _ _ e He).
        -- cbn. symmetry. apply String.eqb_refl.
      * discriminate.
      * intros _ _. repeat apply conj.
        -- exact P.
        -- exact SS.
        -- assert (PF : Permutation (filter isCurrentUser sorted)
                          (filter isCurrentUser
                             (map (markCurrent (id u)) leaderboardData
                              ++ [ownEntry u]))).
           { clear - P. induction P; cbn.
             - constructor.
             - destruct (isCurrentUser x); [now constructor | assumption].
             - destruct (isCurrentUser x); destruct (isCurrentUser y);
                 try reflexivity. apply perm_swap.
             - etransitivity; eassumption. }
           rewrite filter_app, (existsb_isCurrentUser_false _ F) in PF.
           cbn in PF. apply Permutation_sym in PF.
           exact (Permutation_length_1_inv PF).
        -- rewrite (Permutation_length P), length_app, length_map. cbn. lia.
Qed.

Lemma mergeLeaderboard_merges_witness :
  List.length (mergeLeaderboard
                 [mkEntry "a" 5000 3 10 false; mkEntry "b" 200 9 4 false]
                 (user Revive.signedUp)) = 3%nat.
Proof.
  apply (mergeLeaderboard_merges
           [mkEntry "a" 5000 3 10 false; mkEntry "b" 200 9 4 false]
           (user Revive.signedUp)); [reflexivity | discriminate].
Defined.

(** * Persistence *)

Lemma updateXpHistory_cases (today : string) (xpNow : Z)
  (xpHistory : list (string * Z)) :
  (exists earlier old,
     xpHistory = earlier ++ [(today, old)] /\
     updateXpHistory today xpNow xpHistory = earlier ++ [(today, xpNow)]) \/
  ((forall earlier old, xpHistory <> earlier ++ [(today, old)]) /\
   updateXpHistory today xpNow xpHistory = xpHistory ++ [(today, xpNow)]).
Proof.
  unfold updateXpHistory.
  destruct (rev xpHistory) as [|[date old] earlier] eqn:E.
  - right. split; [|reflexivity].
    intros e o H. rewrite H, rev_app_distr in E. discriminate E.
  - assert (H : xpHistory = rev earlier ++ [(date, old)]).
    { rewrite <- (rev_involutive xpHistory), E. reflexivity. }
    destruct (date =? today)%string eqn:D.
    + apply String.eqb_eq in D. subst date. left.
      exists (rev earlier), old. split; [exact H | reflexivity].
    + apply String.eqb_neq in D. right. split; [|reflexivity].
      intros e o H'. rewrite H' in H.
      apply app_inj_tail in H. destruct H as [_ H].
      injection H as H1 _. congruence.
Qed.

(** X22.  The XP history after a save ends with today's balance, keeps every
    earlier entry, and grows by one entry only when the last entry is of
    another day: a second save on the same day replaces the entry of the
    first. *)
Theorem updateXpHistory_today (today : string) (xp1 xp2 : Z)
  (xpHistory : list (string * Z)) :
  let h1 := updateXpHistory today xp1 xpHistory in
  (exists earlier,
     h1 = earlier ++ [(today, xp1)] /\
     (xpHistory = earlier \/ exists old, xpHistory = earlier ++ [(today, old)])) /\
  (List.length xpHistory <= List.length h1 <= S (List.length xpHistory))%nat /\
  updateXpHistory today xp2 h1 = updateXpHistory today xp2 xpHistory.
Proof.
  intro h1. subst h1.
  destruct (updateXpHistory_cases today xp1 xpHistory)
    as [(earlier & old & Hh & E1)|[Hn E1]].
  - rewrite E1. split; [|split].
    + exists earlier. split; [reflexivity|]. right. now exists old.
    + rewrite Hh, !length_app. cbn. lia.
    + rewrite Hh.
      destruct (updateXpHistory_cases today xp2 (earlier ++ [(today, xp1)]))
        as [(e & o & H & E)|[H _]]; [|now specialize (H earlier xp1)].
      apply app_inj_tail in H. destruct H as [<- _]. rewrite E.
      destruct (updateXpHistory_cases today xp2 (earlier ++ [(today, old)]))
        as [(e' & o' & H' & E')|[H' _]]; [|now specialize (H' earlier old)].
      apply app_inj_tail in H'. destruct H' as [<- _]. now rewrite E'.
  - rewrite E1. split; [|split].
    + exists xpHistory. split; [reflexivity | now left].
    + rewrite length_app. cbn. lia.
    + destruct (updateXpHistory_cases today xp2 (xpHistory ++ [(today, xp1)]))
        as [(e & o & H & E)|[H _]]; [|now specialize (H xpHistory xp1)].
      apply app_inj_tail in H. destruct H as [<- _]. rewrite E.
      destruct (updateXpHistory_cases today xp2 xpHistory)
        as [(e' & o' & H' & _)|[_ E']]; [|now rewrite E'].
      now specialize (Hn e' o').
Qed.

(** X24.  Whatever the stored record holds, the loaded balance and level are
    never 0 and the equipped cosmetic is never the empty string: a stored
    balance of 0 (a player who lost everything), like a missing one, is
    loaded as 1000 XP.  The player's id is not taken from the store. *)
Theorem loadUserData_defaults (userData : StoredUser) (prev : UserData) :
  let u := loadUserData userData prev in
  xp u <> 0 /\ level u <> 0 /\ activeCosmetic u <> ""%string /\
  lastPlayDate u <> Some ""%string /\
  id u = id prev /\
  (st_xp userData = Some 0 \/ st_xp userData = None -> xp u = 1000) /\
  (forall x, st_xp userData = Some x -> x <> 0 -> xp u = x).
Proof.
  cbn. repeat apply conj.
  - unfold orZ. destruct (st_xp userData) as [x|]; [|discriminate].
    destruct (x =? 0) eqn:E; [discriminate | now apply Z.eqb_neq].
  - unfold orZ. destruct (st_level userData) as [x|]; [|discriminate].
    destruct (x =? 0) eqn:E; [discriminate | now apply Z.eqb_neq].
  - unfold orString. destruct (st_activeCosmetic userData) as [x|];
      [|discriminate].
    destruct (x =? "")%string eqn:E; [discriminate | now apply String.eqb_neq].
  - destruct (st_lastPlayDate userData) as [d|]; [|discriminate].
    destruct (d =? "")%string eqn:E; [discriminate|].
    apply String.eqb_neq in E. congruence.
  - reflexivity.
  - intros [H|H]; rewrite H; reflexivity.
  - intros x H Hx. rewrite H. cbn. apply Z.eqb_neq in Hx. now rewrite Hx.
Qed.

Lemma loadUserData_defaults_witness :
  xp (loadUserData
        (mkStoredUser (Some 0) None None None None None None None None None
                      None None None None None None) initialUser) = 1000.
Proof.
  destruct (loadUserData_defaults
              (mkStoredUser (Some 0) None None None None None None None None
                            None None None None None None None) initialUser)
    as (_ & _ & _ & _ & _ & H & _).
  apply H. now left.
Defined.

(** * Daily streak *)

(** X25.  The daily update runs once a day: after an update made from the
    current render, a second update on the same day changes nothing.  For a
    signed-in player the first update always leaves today as the last play
    date, and a first visit starts the streak at 1 without a bonus. *)
Theorem updateDailyStreak_once_a_day (today yesterdayStr : string) (s : State) :
  today <> ""%string ->
  let s' := updateDailyStreak today yesterdayStr s s in
  updateDailyStreak today yesterdayStr s' s' = s' /\
  (isGuest s = true -> s' = s) /\
  (isGuest s = false -> lastPlayDate (user s') = Some today) /\
  (isGuest s = false -> lastPlayDate (user s) = None ->
   dailyStreak (user s') = 1 /\ xp (user s') = xp (user s)).
Proof.
  intros Ht s'.
  assert (G' : isGuest s' = isGuest s).
  { subst s'. unfold updateDailyStreak.
    destruct (isGuest s) eqn:G; [exact G|].
    destruct (lastPlayDate (user s)) as [lp|]; [|exact G].
    destruct (lp =? "")%string; [exact G|].
    destruct (lp =? today)%string; [exact G|].
    destruct (lp =? yesterdayStr)%string;
      destruct ((dailyStreak (user s) + 1 >=? 3)
                && (Z.rem (dailyStreak (user s) + 1) 3 =? 0)); exact G. }
  assert (L : isGuest s = false -> lastPlayDate (user s') = Some today).
  { intro G. subst s'. unfold updateDailyStreak. rewrite G.
    destruct (lastPlayDate (user s)) as [lp|] eqn:E; [|reflexivity].
    destruct (lp =? "")%string; [reflexivity|].
    destruct (lp =? today)%string eqn:D.
    - apply String.eqb_eq in D. now subst lp.
    - destruct (lp =? yesterdayStr)%string;
        destruct ((dailyStreak (user s) + 1 >=? 3)
                  && (Z.rem (dailyStreak (user s) + 1) 3 =? 0)); reflexivity. }
  repeat apply conj.
  - destruct (isGuest s) eqn:G.
    + unfold updateDailyStreak at 1. now rewrite G'.
    + apply updateDailyStreak_same_day; [now apply L | exact Ht].
  - intro G. subst s'. unfold updateDailyStreak. now rewrite G.
  - exact L.
  - intros G N. subst s'. unfold updateDailyStreak. rewrite G, N. cbn.
    split; [reflexivity | lia].
Qed.

Lemma updateDailyStreak_once_a_day_witness :
  updateDailyStreak "2024-03-10" "2024-03-09" Streak.kept Streak.kept
  = Streak.kept.
Proof.
  apply (updateDailyStreak_once_a_day "2024-03-10" "2024-03-09"
           (Streak.player "2024-03-09")).
  discriminate.
Defined.

(** * Near miss and climb *)

(** X26.  The near-miss notice fires exactly when both multipliers are
    known and not 0 and the cash-out lies below the crash point by less than
    0.1; it never fires for a cash-out at or above the crash point. *)
Theorem analyzeNearMiss_fires (userCashOut actualCrash : option Q) :
  analyzeNearMiss userCashOut actualCrash = true <->
  exists u a, userCashOut = Some u /\ actualCrash = Some a /\
              ~ (u == 0)%Q /\ ~ (a == 0)%Q /\ (u < a)%Q /\ (a - u < 0.1)%Q.
Proof.
  unfold analyzeNearMiss.
  destruct userCashOut as [u|]; [|split; [discriminate | intros (? & ? & H & _); discriminate H]].
  destruct actualCrash as [a|]; [|split; [discriminate | intros (? & ? & _ & H & _); discriminate H]].
  destruct (Qeq_bool u 0) eqn:Eu; cbn [orb].
  { apply Qeq_bool_iff in Eu. split; [discriminate|].
    intros (u' & a' & Hu & _ & N & _). injection Hu as <-. contradiction. }
  destruct (Qeq_bool a 0) eqn:Ea.
  { apply Qeq_bool_iff in Ea. split; [discriminate|].
    intros (u' & a' & _ & Ha & _ & N & _). injection Ha as <-. contradiction. }
  assert (Nu : ~ (u == 0)%Q) by (intro C; apply Qeq_bool_iff in C; congruence).
  assert (Na : ~ (a == 0)%Q) by (intro C; apply Qeq_bool_iff in C; congruence).
  rewrite andb_true_iff, !Qltb_iff. split.
  - intros [D L]. exists u, a. repeat split; auto.
    rewrite Qabs_neg in D by lra. lra.
  - intros (u' & a' & Hu & Ha & _ & _ & L & D).
    injection Hu as <-. injection Ha as <-. split; [|exact L].
    rewrite Qabs_neg by lra. lra.
Qed.

(** A run of ticks of a climb whose render holds the crash point [cp]. *)
Lemma runTicks_acc_bounded (cp : Q) (rc : State) (times : list Z)
  (acc : World * option State) :
  crashPoint (game rc) = Some cp ->
  ~ (cp == 0)%Q ->
  ((snd acc = None /\
    (exists c, multiplierIntervalRef (fst acc) = Some c /\ closure c = rc) /\
    (currentMultiplier (game (store (fst acc))) <= cp)%Q) \/
   (snd acc = Some rc /\ multiplierIntervalRef (fst acc) = None /\
    currentMultiplier (game (store (fst acc))) = cp)) ->
  let res := fold_left (fun a elapsed =>
                          match snd a with
                          | Some _ => a
                          | None => climbTick elapsed (fst a)
                          end) times acc in
  (currentMultiplier (game (store (fst res))) <= cp)%Q /\
  (forall r, snd res = Some r ->
     r = rc /\ currentMultiplier (game (store (fst res))) = cp /\
     multiplierIntervalRef (fst res) = None).
Proof.
  intros Hcp Hnz. revert acc.
  induction times as [|t ts IH]; intros acc Inv; cbn [fold_left].
  - destruct Inv as [(Hs & _ & Hle)|(Hs & Hi & Hm)].
    + split; [exact Hle|]. intros r H. congruence.
    + split; [rewrite Hm; lra|]. intros r H.
      rewrite Hs in H. injection H as <-. auto.
  - destruct Inv as [(Hs & (c & Hc & Hcl) & Hle)|(Hs & Hi & Hm)].
    + rewrite Hs. apply IH.
      destruct (Qlt_le_dec (newMultiplierAt t) cp) as [L|G].
      * left.
        assert (Hcp' : crashPoint (game (closure c)) = Some cp)
          by (now rewrite Hcl).
        destruct (climbTick_below t (fst acc) c cp Hc Hcp' L) as [Hn Hv].
        repeat split.
        -- exact Hn.
        -- unfold climbTick. rewrite Hc, Hcp'.
           apply Qgeb_false_iff in L. rewrite L, andb_false_r. cbn [fst].
           unfold climbUpdate. destruct (Qgtb _ _); cbn.
           ++ eexists. split; [reflexivity | exact Hcl].
           ++ exists c. split; assumption.
        -- destruct Hv as [E|E]; rewrite E; [exact Hle | lra].
      * right.
        assert (Hcp' : crashPoint (game (closure c)) = Some cp)
          by (now rewrite Hcl).
        rewrite (climbTick_clamps t (fst acc) c cp Hc Hcp' Hnz G).
        cbn. rewrite Hcl. repeat split.
    + rewrite Hs. apply IH. right. auto.
Qed.

(** X27.  A climb never shows more than the crash point its callback reads:
    starting at or below that crash point, after any run of ticks the
    multiplier is at most the crash point, and once a tick has scheduled the
    crash the multiplier is exactly the crash point and the interval is
    cleared. *)
Theorem runTicks_bounded (cp : Q) (times : list Z) (w : World) (c : Climb) :
  multiplierIntervalRef w = Some c ->
  crashPoint (game (closure c)) = Some cp ->
  ~ (cp == 0)%Q ->
  (currentMultiplier (game (store w)) <= cp)%Q ->
  let res := runTicks times w in
  (currentMultiplier (game (store (fst res))) <= cp)%Q /\
  (forall r, snd res = Some r ->
     r = closure c /\ currentMultiplier (game (store (fst res))) = cp /\
     multiplierIntervalRef (fst res) = None).
Proof.
  intros Hc Hcp Hnz Hle.
  apply (runTicks_acc_bounded cp (closure c) times (w, None) Hcp Hnz).
  left. cbn. repeat split; [|exact Hle]. exists c. auto.
Qed.

Lemma runTicks_bounded_witness :
  (currentMultiplier (game (store (fst (runTicks (tickTimes 170) Revive.wagered2))))
   <= generateCrashPoint 0.2 0.5)%Q.
Proof.
  apply (runTicks_bounded (generateCrashPoint 0.2 0.5) (tickTimes 170)
           Revive.wagered2 (mkClimb 1.00%Q (store Revive.reset1))).
  - vm_compute. reflexivity.
  - vm_compute. reflexivity.
  - vm_compute. discriminate.
  - vm_compute. discriminate.
Defined.

Lemma analyzeNearMiss_fires_witness :
  analyzeNearMiss (Some 1.95%Q) (Some 2.00%Q) = true.
Proof.
  apply (proj2 (analyzeNearMiss_fires (Some 1.95%Q) (Some 2.00%Q))).
  exists 1.95%Q, 2.00%Q.
  repeat split; try (vm_compute; reflexivity); vm_compute; discriminate.
Defined.
